(** * atc-scope-tracker: the live-tracking pipeline of the two map views

    The repository holds two Vue single-file components with the same
    pipeline written twice:

    - the radar scope view (the larger component, with the sector polygons),
      whose [calculateDirectionLine lat lon track speed] draws the position
      reached in one minute and is gated on the Leaflet map object;
    - [src/components/Map.vue], whose [calculateDirectionLine lat lon track]
      draws a short line of fixed length that starts slightly off the
      aircraft position.

    Both share, character for character, the [validMarkers] filter and the
    shape of [getFlights] (fetch, status check, JSON body, filter, replace
    both reactive lists, everything inside one try/catch).

    Modelling choices.

    - A JavaScript number is [NaN], a signed infinity or a finite real
      ([number]).  Arithmetic follows the special-value rules of the
      language and is exact on finite values: rounding, overflow and the
      sign of zero are not represented.  [Math.sin], [Math.cos],
      [Math.asin] and [Math.atan2] are the real functions on finite
      arguments, with the language's results on the special values.
    - A field of an aircraft entry is a loosely typed value ([JsVal]):
      absent ([JUndefined]), [null], a boolean or a number.  Text in a
      numeric field is outside the model; the identifier [hex] is an
      optional string.  An element of the [ac] array is [null], a primitive
      or an object ([RawEntry]).
    - The component state ([World]) holds the two reactive lists, the map
      reference and the console.  Code runs in a state-and-exception monad
      [M]; state written before a throw survives it, as in the language.
    - The outcome of the network request is an input of [getFlights]. *)

From Stdlib Require Import Reals Lra List String Bool Arith Lia.
Import ListNotations.

Set Implicit Arguments.

Local Open Scope R_scope.

(** ** Numbers *)

Inductive number : Type :=
| NaN
| Inf (negative : bool)
| Fin (r : R).

Definition Rneg (r : R) : bool := if Rlt_dec r 0 then true else false.
Definition Rzero (r : R) : bool := if Req_dec_T r 0 then true else false.

(** [a * b]. *)
Definition mul (a b : number) : number :=
  match a, b with
  | NaN, _ | _, NaN => NaN
  | Fin x, Fin y => Fin (x * y)
  | Inf s, Inf t => Inf (xorb s t)
  | Inf s, Fin x | Fin x, Inf s =>
      if Rzero x then NaN else Inf (xorb s (Rneg x))
  end.

(** [a / b].  A zero divisor counts as positive zero. *)
Definition div (a b : number) : number :=
  match a, b with
  | NaN, _ | _, NaN => NaN
  | Inf _, Inf _ => NaN
  | Inf s, Fin y => Inf (xorb s (Rneg y))
  | Fin _, Inf _ => Fin 0
  | Fin x, Fin y =>
      if Rzero y then (if Rzero x then NaN else Inf (Rneg x))
      else Fin (x / y)
  end.

(** [a + b]. *)
Definition add (a b : number) : number :=
  match a, b with
  | NaN, _ | _, NaN => NaN
  | Inf s, Inf t => if Bool.eqb s t then Inf s else NaN
  | Inf s, Fin _ | Fin _, Inf s => Inf s
  | Fin x, Fin y => Fin (x + y)
  end.

(** [a - b]. *)
Definition sub (a b : number) : number :=
  match a, b with
  | NaN, _ | _, NaN => NaN
  | Inf s, Inf t => if Bool.eqb s t then NaN else Inf s
  | Inf s, Fin _ => Inf s
  | Fin _, Inf s => Inf (negb s)
  | Fin x, Fin y => Fin (x - y)
  end.

Module Math.

Definition PI : number := Fin Rtrigo1.PI.

Definition sin (x : number) : number :=
  match x with Fin r => Fin (Rtrigo_def.sin r) | _ => NaN end.

Definition cos (x : number) : number :=
  match x with Fin r => Fin (Rtrigo_def.cos r) | _ => NaN end.

(** NaN outside [-1, 1]. *)
Definition asin (x : number) : number :=
  match x with
  | Fin r =>
      if Rle_dec (-1) r then
        if Rle_dec r 1 then Fin (Ratan.asin r) else NaN
      else NaN
  | _ => NaN
  end.

(** The two-argument arctangent on finite reals, in (-PI, PI]. *)
Definition Ratan2 (y x : R) : R :=
  if Rlt_dec 0 x then atan (y / x)
  else if Rlt_dec x 0 then
    (if Rlt_dec y 0 then atan (y / x) - Rtrigo1.PI
     else atan (y / x) + Rtrigo1.PI)
  else if Rlt_dec 0 y then Rtrigo1.PI / 2
  else if Rlt_dec y 0 then - (Rtrigo1.PI / 2)
  else 0.

Definition signed (negative : bool) (r : R) : R :=
  if negative then - r else r.

Definition atan2 (y x : number) : number :=
  match y, x with
  | NaN, _ | _, NaN => NaN
  | Inf s, Inf false => Fin (signed s (Rtrigo1.PI / 4))
  | Inf s, Inf true => Fin (signed s (3 * Rtrigo1.PI / 4))
  | Inf s, Fin _ => Fin (signed s (Rtrigo1.PI / 2))
  | Fin _, Inf false => Fin 0
  | Fin r, Inf true => Fin (signed (Rneg r) Rtrigo1.PI)
  | Fin r, Fin q => Fin (Ratan2 r q)
  end.

End Math.

(** ** Loosely typed values *)

Inductive JsVal : Type :=
| JUndefined
| JNull
| JBool (b : bool)
| JNum (n : number).

(** The numeric coercion applied by [isNaN] and by the arithmetic
    operators. *)
Definition ToNumber (v : JsVal) : number :=
  match v with
  | JUndefined => NaN
  | JNull => Fin 0
  | JBool true => Fin 1
  | JBool false => Fin 0
  | JNum n => n
  end.

(** Truthiness, as tested by [!v], [v && _] and [if (v)]. *)
Definition ToBoolean (v : JsVal) : bool :=
  match v with
  | JUndefined | JNull => false
  | JBool b => b
  | JNum NaN => false
  | JNum (Inf _) => true
  | JNum (Fin r) => negb (Rzero r)
  end.

(** The global [isNaN(v)]. *)
Definition isNaN (v : JsVal) : bool :=
  match ToNumber v with NaN => true | _ => false end.

(** ** Aircraft entries, segments and the component state *)

(** One element of the upstream [ac] array, an object.  The display
    attributes ([flight], [alt_baro], [squawk], [t], [r]) are carried along
    untouched by the pipeline and are left out. *)
Record Aircraft : Type := mkAircraft {
  hex : option string;
  lat : JsVal;
  lon : JsVal;
  track : JsVal;
  gs : JsVal
}.

Definition Point : Type := (JsVal * JsVal)%type.

(** The two-element array of [lat, lon] pairs returned by
    [calculateDirectionLine]. *)
Definition Segment : Type := (Point * Point)%type.

Definition seg_start (s : Segment) : Point := fst s.
Definition seg_end (s : Segment) : Point := snd s.

(** An element of [directionLines]: [{ hex: marker.hex, line: linePoints }]. *)
Record DirectionLine : Type := mkLine {
  line_hex : option string;
  line : Segment
}.

(** [mapRef.value]: [null] before the map component is mounted, then the
    component, whose [leafletObject] is set once the map is ready. *)
Inductive MapRef : Type :=
| NotMounted
| MountedNotReady
| MapReady.

(** Whether [mapRef.value?.leafletObject] is truthy. *)
Definition leafletObject (m : MapRef) : bool :=
  match m with MapReady => true | _ => false end.

Inductive Error : Type :=
| NetworkFailure
| HttpError (status : nat)
| SyntaxError
| TypeError.

Inductive ConsoleLine : Type :=
| LogUpdated (count : nat)
| LogSize
| ErrorFailedToFetch (err : Error).

Record World : Type := mkWorld {
  markers : list Aircraft;
  directionLines : list DirectionLine;
  mapRef : MapRef;
  console : list ConsoleLine
}.

(** ** State and exceptions *)

Inductive Completion (A : Type) : Type :=
| Normal (a : A)
| Throw (e : Error).

Arguments Throw {A} e.

Definition M (A : Type) : Type := World -> World * Completion A.

Definition ret {A} (a : A) : M A := fun w => (w, Normal a).

Definition throw {A} (e : Error) : M A := fun w => (w, Throw e).

Definition bind {A B} (m : M A) (k : A -> M B) : M B :=
  fun w =>
    match m w with
    | (w', Normal a) => k a w'
    | (w', Throw e) => (w', Throw e)
    end.

Notation "x <- m ;; k" := (bind m (fun x => k))
  (at level 61, m at next level, right associativity).
Notation "m ;;; k" := (bind m (fun _ => k))
  (at level 61, right associativity).

Definition try_catch {A} (body : M A) (handler : Error -> M A) : M A :=
  fun w =>
    match body w with
    | (w', Normal a) => (w', Normal a)
    | (w', Throw e) => handler e w'
    end.

Definition read_mapRef : M MapRef := fun w => (w, Normal (mapRef w)).

Definition set_markers (l : list Aircraft) : M unit :=
  fun w => (mkWorld l (directionLines w) (mapRef w) (console w), Normal tt).

Definition set_directionLines (l : list DirectionLine) : M unit :=
  fun w => (mkWorld (markers w) l (mapRef w) (console w), Normal tt).

Definition console_write (c : ConsoleLine) : M unit :=
  fun w =>
    (mkWorld (markers w) (directionLines w) (mapRef w) (console w ++ [c]),
     Normal tt).

(** [Array.prototype.map] with an effectful callback, left to right. *)
Fixpoint mapM {A B} (f : A -> M B) (l : list A) : M (list B) :=
  match l with
  | [] => ret []
  | a :: l' => b <- f a ;; bs <- mapM f l' ;; ret (b :: bs)
  end.

(** ** The validation filter (identical in both components) *)

(** The callback
    [marker.lat && marker.lon && !isNaN(marker.lat) && !isNaN(marker.lon)],
    as [filter] reads it (by truthiness). *)
Definition hasValidCoordinates (marker : Aircraft) : bool :=
  ToBoolean (lat marker) && ToBoolean (lon marker)
  && negb (isNaN (lat marker)) && negb (isNaN (lon marker)).

(** An element of the [ac] array as the callback meets it: [null], on
    which reading [marker.lat] throws a TypeError; a primitive (a number, a
    string, a boolean), whose [lat] is [undefined]; or an object. *)
Inductive RawEntry : Type :=
| EntryNull
| EntryPrimitive
| EntryObject (marker : Aircraft).

Definition isNull (e : RawEntry) : bool :=
  match e with EntryNull => true | _ => false end.

(** [ac.filter(callback)]: the callback is applied to the elements from
    left to right; the first [null] element ends the call with the
    TypeError, a primitive is dropped, an object is kept when the callback
    is truthy on it.  Only objects can be kept. *)
Fixpoint filterEntries (raw : list RawEntry) : M (list Aircraft) :=
  match raw with
  | [] => ret []
  | EntryNull :: _ => throw TypeError
  | EntryPrimitive :: rest => filterEntries rest
  | EntryObject marker :: rest =>
      kept <- filterEntries rest ;;
      ret (if hasValidCoordinates marker then marker :: kept else kept)
  end.

(** The shapes of the parsed body [data] that the expression
    [data.ac?.filter(...) || []] tells apart. *)
Inductive Payload : Type :=
| DataNull                       (* [null]: reading [data.ac] throws *)
| DataWithoutAc                  (* no [ac], or [ac] is [null]; a primitive *)
| DataAcNotArray                 (* [ac] is not an array: no [filter] method *)
| DataAcRaw (raw : list RawEntry).  (* [ac] is an array *)

(** An [ac] array whose elements are all objects. *)
Definition DataAc (ac : list Aircraft) : Payload :=
  DataAcRaw (map EntryObject ac).

Arguments DataAc : simpl never.

(** [const validMarkers = data.ac?.filter(...) || []]. *)
Definition validMarkers (data : Payload) : M (list Aircraft) :=
  match data with
  | DataNull => throw TypeError
  | DataWithoutAc => ret []
  | DataAcNotArray => throw TypeError
  | DataAcRaw raw => filterEntries raw
  end.

(** ** The network outcome *)

Inductive Body : Type :=
| BodyNotJson
| BodyJson (data : Payload).

Inductive FetchResult : Type :=
| FetchRejected
| FetchResponse (status : nat) (body : Body).

(** [response.ok]: a status in 200..299. *)
Definition response_ok (status : nat) : bool :=
  (200 <=? status)%nat && (status <=? 299)%nat.

Definition fetch (net : FetchResult) : M (nat * Body) :=
  match net with
  | FetchRejected => throw NetworkFailure
  | FetchResponse status body => ret (status, body)
  end.

(** [await response.json()]. *)
Definition json (body : Body) : M Payload :=
  match body with
  | BodyNotJson => throw SyntaxError
  | BodyJson data => ret data
  end.

(** [.filter((line) => line !== null)]. *)
Fixpoint dropNull {A} (l : list (option A)) : list A :=
  match l with
  | [] => []
  | Some a :: l' => a :: dropNull l'
  | None :: l' => dropNull l'
  end.

(** ** [getFlights], over the projection call of either component *)

Section Pipeline.

(** The call [calculateDirectionLine(marker.lat, marker.lon, ...)]. *)
Variable project : Aircraft -> M (option Segment).

Definition lineFor (marker : Aircraft) : M (option DirectionLine) :=
  if ToBoolean (track marker) then
    linePoints <- project marker ;;
    match linePoints with
    | Some pts => ret (Some (mkLine (hex marker) pts))
    | None => ret None
    end
  else ret None.

Definition getFlights_try (net : FetchResult) : M unit :=
  response <- fetch net ;;
  if negb (response_ok (fst response)) then
    throw (HttpError (fst response))
  else
    data <- json (snd response) ;;
    valid <- validMarkers data ;;
    set_markers valid ;;;
    lines <- mapM lineFor valid ;;
    set_directionLines (dropNull lines) ;;;
    console_write (LogUpdated (List.length valid)).

Definition getFlights_with (net : FetchResult) : M unit :=
  try_catch (getFlights_try net)
            (fun err => console_write (ErrorFailedToFetch err)).

End Pipeline.

(** ** Arithmetic notation for the projection formulas *)

Declare Scope js_scope.
Delimit Scope js_scope with js.
Notation "a * b" := (mul a b) : js_scope.
Notation "a / b" := (div a b) : js_scope.
Notation "a + b" := (add a b) : js_scope.
Notation "a - b" := (sub a b) : js_scope.

(** ** The radar scope view *)

Module RadarScope.

(** The local constant [distanceIn1Minute]: the speed times 0.0003
    ("degrees per minute"), divided by 90. *)
Definition distanceIn1Minute (speed : JsVal) : number :=
  let speedInDegreesPerMinute := (ToNumber speed * Fin 0.0003)%js in
  (speedInDegreesPerMinute / Fin 90)%js.

(** [calculateDirectionLine(lat, lon, track, speed)].  The fifth parameter
    [distance = 0.001] is never read. *)
Definition calculateDirectionLine (lat lon track speed : JsVal)
  : M (option Segment) :=
  if negb (ToBoolean track) || isNaN track
     || negb (ToBoolean speed) || isNaN speed
  then ret None
  else
    ref <- read_mapRef ;;
    if negb (leafletObject ref) then ret None
    else
      let distanceIn1Minute := distanceIn1Minute speed in
      let trackRad := (ToNumber track * Math.PI / Fin 180)%js in
      let latRad := (ToNumber lat * Math.PI / Fin 180)%js in
      let lonRad := (ToNumber lon * Math.PI / Fin 180)%js in
      let startLatRad := latRad in
      let startLonRad := lonRad in
      let endLatRad :=
        Math.asin
          (Math.sin startLatRad * Math.cos distanceIn1Minute
           + Math.cos startLatRad * Math.sin distanceIn1Minute
             * Math.cos trackRad)%js in
      let endLonRad :=
        (startLonRad
         + Math.atan2
             (Math.sin trackRad * Math.sin distanceIn1Minute
              * Math.cos startLatRad)
             (Math.cos distanceIn1Minute
              - Math.sin startLatRad * Math.sin endLatRad))%js in
      ret (Some ((lat, lon),
                 (JNum (endLatRad * Fin 180 / Math.PI)%js,
                  JNum (endLonRad * Fin 180 / Math.PI)%js))).

(** The call made by [getFlights] for one marker. *)
Definition projectMarker (marker : Aircraft) : M (option Segment) :=
  calculateDirectionLine (lat marker) (lon marker) (track marker) (gs marker).

Definition getFlights : FetchResult -> M unit :=
  getFlights_with projectMarker.

End RadarScope.

(** ** [src/components/Map.vue] *)

Module MapComponent.

(** [let size = -0.0002], never reassigned. *)
Definition size : number := Fin (-0.0002).

(** The default of the parameter [distance]; every call relies on it. *)
Definition defaultDistance : number := Fin 0.001.

(** [calculateDirectionLine(lat, lon, track, distance = 0.001)]. *)
Definition calculateDirectionLine (lat lon track : JsVal) (distance : number)
  : M (option Segment) :=
  if negb (ToBoolean track) || isNaN track then ret None
  else
    let trackRad := (ToNumber track * Math.PI / Fin 180)%js in
    let latRad := (ToNumber lat * Math.PI / Fin 180)%js in
    let lonRad := (ToNumber lon * Math.PI / Fin 180)%js in
    let startDistance := Fin 0.00001 in
    let startLatRad :=
      Math.asin
        (Math.sin latRad * Math.cos startDistance
         + Math.cos latRad * Math.sin startDistance * Math.cos trackRad)%js in
    let startLonRad :=
      (lonRad
       + Math.atan2
           (Math.sin trackRad * Math.sin startDistance * Math.cos latRad)
           (Math.cos startDistance
            - Math.sin latRad * Math.sin startLatRad))%js in
    console_write LogSize ;;;
    let endLatRad :=
      Math.asin
        (Math.sin startLatRad * Math.cos (distance - size)
         + Math.cos startLatRad * Math.sin (distance - size)
           * Math.cos trackRad)%js in
    let endLonRad :=
      (startLonRad
       + Math.atan2
           (Math.sin trackRad * Math.sin (distance - size)
            * Math.cos startLatRad)
           (Math.cos (distance - size)
            - Math.sin startLatRad * Math.sin endLatRad))%js in
    ret (Some ((JNum (startLatRad * Fin 180 / Math.PI)%js,
                JNum (startLonRad * Fin 180 / Math.PI)%js),
               (JNum (endLatRad * Fin 180 / Math.PI)%js,
                JNum (endLonRad * Fin 180 / Math.PI)%js))).

(** The call made by [getFlights] for one marker. *)
Definition projectMarker (marker : Aircraft) : M (option Segment) :=
  calculateDirectionLine (lat marker) (lon marker) (track marker)
                         defaultDistance.

Definition getFlights : FetchResult -> M unit :=
  getFlights_with projectMarker.

End MapComponent.

(** ** The popup of [Map.vue]: the wind rose and the text fields *)

(** [Math.round]: the nearest integer, halves going up. *)
Definition Math_round (x : number) : number :=
  match x with
  | Fin r => Fin (IZR (Zfloor (r + 1 / 2)))
  | other => other
  end.

(** The text inside an SVG [<text>] element of the wind rose: a direction
    name, [Math.round(track)] followed by the degree sign, or the word
    TRACK. *)
Inductive SvgText : Type :=
| TextName (name : string)
| TextDegrees (n : number)
| TextTrack.

(** The elements that [createWindRose] appends to its SVG string, in
    order, with their coordinates and stroke colour.  The remaining
    attributes (fill, stroke width, font) are constants of each template and
    are left out, as is the enclosing [<svg>] tag of width and height
    [size]. *)
Inductive SvgElement : Type :=
| SvgCircle (cx cy r : number)
| SvgLine (x1 y1 x2 y2 : number) (stroke : string)
| SvgLabel (x y : number) (content : SvgText)
| SvgPolygon (p1 p2 p3 : number * number).

Module WindRose.

Definition size : number := Fin 120.
Definition center : number := (size / Fin 2)%js.
Definition radius : number := Fin 45.

Definition directions : list (string * number) :=
  [("N", Fin 0); ("NE", Fin 45); ("E", Fin 90); ("SE", Fin 135);
   ("S", Fin 180); ("SW", Fin 225); ("W", Fin 270); ("NW", Fin 315)]%string.

(** The body of [directions.forEach]: a tick and a label. *)
Definition directionMark (dir : string * number) : list SvgElement :=
  let angle := ((snd dir - Fin 90) * Math.PI / Fin 180)%js in
  let x1 := (center + (radius - Fin 15) * Math.cos angle)%js in
  let y1 := (center + (radius - Fin 15) * Math.sin angle)%js in
  let x2 := (center + radius * Math.cos angle)%js in
  let y2 := (center + radius * Math.sin angle)%js in
  let textX := (center + (radius + Fin 12) * Math.cos angle)%js in
  let textY := (center + (radius + Fin 12) * Math.sin angle)%js in
  [SvgLine x1 y1 x2 y2 "rgba(255,255,255,0.5)";
   SvgLabel textX textY (TextName (fst dir))].

(** [track !== null]. *)
Definition notNull (v : JsVal) : bool :=
  match v with JNull => false | _ => true end.

(** The block under [if (track !== null && !isNaN(track))]: the arrow, its
    head, the rounded track and the word TRACK. *)
Definition arrow (track : JsVal) : list SvgElement :=
  if notNull track && negb (isNaN track) then
    let trackAngle := ((ToNumber track - Fin 90) * Math.PI / Fin 180)%js in
    let arrowLength := (radius - Fin 5)%js in
    let arrowX := (center + arrowLength * Math.cos trackAngle)%js in
    let arrowY := (center + arrowLength * Math.sin trackAngle)%js in
    let headLength := Fin 8 in
    let headAngle := Fin 0.5 in
    let head1X :=
      (arrowX - headLength * Math.cos (trackAngle - headAngle))%js in
    let head1Y :=
      (arrowY - headLength * Math.sin (trackAngle - headAngle))%js in
    let head2X :=
      (arrowX - headLength * Math.cos (trackAngle + headAngle))%js in
    let head2Y :=
      (arrowY - headLength * Math.sin (trackAngle + headAngle))%js in
    [SvgLine center center arrowX arrowY "red";
     SvgPolygon (arrowX, arrowY) (head1X, head1Y) (head2X, head2Y);
     SvgLabel center (center - Fin 5)%js
              (TextDegrees (Math_round (ToNumber track)));
     SvgLabel center (center + Fin 10)%js TextTrack]
  else [].

(** [createWindRose(track)]. *)
Definition createWindRose (track : JsVal) : list SvgElement :=
  SvgCircle center center radius
  :: flat_map directionMark directions ++ arrow track.

End WindRose.

(** What an interpolation of the popup shows: a number, a number followed
    by the degree sign, or a text. *)
Inductive Shown : Type :=
| ShownNumber (n : number)
| ShownDegrees (n : number)
| ShownText (s : string).

Module Popup.

(** [Math.round(marker.gs) || "N/A"]. *)
Definition speed (marker : Aircraft) : Shown :=
  let rounded := Math_round (ToNumber (gs marker)) in
  if ToBoolean (JNum rounded) then ShownNumber rounded
  else ShownText "N/A".

(** [marker.track ? Math.round(marker.track) + degree sign : "N/A"]. *)
Definition trackText (marker : Aircraft) : Shown :=
  if ToBoolean (track marker)
  then ShownDegrees (Math_round (ToNumber (track marker)))
  else ShownText "N/A".

End Popup.

(** ** Vocabulary of the statements *)

(** The test that lets [RadarScope.calculateDirectionLine] go past its
    first line. *)
Definition headingGuard (track speed : JsVal) : bool :=
  ToBoolean track && negb (isNaN track)
  && ToBoolean speed && negb (isNaN speed).

(** Whether a validated marker gets a direction line in the radar scope
    view. *)
Definition drawsHeading (ref : MapRef) (marker : Aircraft) : bool :=
  leafletObject ref && headingGuard (track marker) (gs marker).

(** "Present and a finite number". *)
Definition finiteNumber (v : JsVal) : Prop := exists r, v = JNum (Fin r).

(** The direct-position formula of spherical navigation, on reals:
    latitude and longitude (radians) reached from latitude [phi] and
    longitude [lam] on bearing [theta] after the angular distance
    [delta]. *)
Definition destLat (phi theta delta : R) : R :=
  Ratan.asin (sin phi * cos delta + cos phi * sin delta * cos theta).

Definition destLon (phi lam theta delta : R) : R :=
  lam + Math.Ratan2 (sin theta * sin delta * cos phi)
                    (cos delta - sin phi * sin (destLat phi theta delta)).

Definition rad (d : R) : R := d * PI / 180.
Definition deg (x : R) : R := x * 180 / PI.

(** Order-preserving subsequence. *)
Inductive subsequence {A : Type} : list A -> list A -> Prop :=
| subseq_nil : subsequence [] []
| subseq_skip a l1 l2 : subsequence l1 l2 -> subsequence l1 (a :: l2)
| subseq_keep a l1 l2 : subsequence l1 l2 -> subsequence (a :: l1) (a :: l2).

(** The runs the specification calls failed: the request is rejected, the
    status is not 2xx, the body is not JSON, or the parsed body is not an
    object with an [ac] array. *)
Definition failedRun (net : FetchResult) : bool :=
  match net with
  | FetchRejected => true
  | FetchResponse status body =>
      negb (response_ok status)
      || match body with
         | BodyNotJson => true
         | BodyJson (DataAcRaw _) => false
         | BodyJson _ => true
         end
  end.

(** The runs in which the try block of [getFlights] throws; for an [ac]
    array, those in which one of its elements is [null]. *)
Definition raises (net : FetchResult) : bool :=
  match net with
  | FetchRejected => true
  | FetchResponse status body =>
      negb (response_ok status)
      || match body with
         | BodyNotJson => true
         | BodyJson DataNull => true
         | BodyJson DataAcNotArray => true
         | BodyJson DataWithoutAc => false
         | BodyJson (DataAcRaw raw) => existsb isNull raw
         end
  end.

(** The objects among the elements of an [ac] array, in order. *)
Definition objectsOf (raw : list RawEntry) : list Aircraft :=
  flat_map (fun e => match e with EntryObject marker => [marker] | _ => [] end)
           raw.

(** A successful response carrying the [ac] array [ac]. *)
Definition snapshot (ac : list Aircraft) : FetchResult :=
  FetchResponse 200 (BodyJson (DataAc ac)).

(** The component state before the first refresh, with the map in the
    given state. *)
Definition freshWorld (ref : MapRef) : World := mkWorld [] [] ref [].

(** Extending the console and nothing else. *)
Definition logged (w : World) (c : list ConsoleLine) : World :=
  mkWorld (markers w) (directionLines w) (mapRef w) (console w ++ c).

(** The value a computation leaves, [None] when it throws. *)
Definition valueOf {A : Type} (c : World * Completion (option A)) : option A :=
  match snd c with
  | Normal r => r
  | Throw _ => None
  end.

(** The segment the radar scope view computes for a marker when the map
    reference is [ref], and the element of [directionLines] built from it. *)
Definition scopeSegment (ref : MapRef) (marker : Aircraft) : option Segment :=
  valueOf (RadarScope.projectMarker marker (freshWorld ref)).

Definition scopeLine (ref : MapRef) (marker : Aircraft)
  : option DirectionLine :=
  option_map (mkLine (hex marker)) (scopeSegment ref marker).

(** Sample entries. *)
Definition jsnum (r : R) : JsVal := JNum (Fin r).

Definition entryA1 : Aircraft :=
  mkAircraft (Some "A1"%string) (jsnum 41.0) (jsnum (-8.0))
             (jsnum 90) (jsnum 120).

Definition entryB2 : Aircraft :=
  mkAircraft (Some "B2"%string) (JNum NaN) (jsnum (-8.0))
             JUndefined JUndefined.

(** Northbound at 120 knots: track 0. *)
Definition entryNorth : Aircraft :=
  mkAircraft (Some "N0"%string) (jsnum 41.0) (jsnum (-8.0))
             (jsnum 0) (jsnum 120).

(** No identifier, good coordinates. *)
Definition entryNoHex : Aircraft :=
  mkAircraft None (jsnum 41.0) (jsnum (-8.0)) JUndefined JUndefined.

(** Two entries with one identifier. *)
Definition entryC3 : Aircraft :=
  mkAircraft (Some "C3"%string) (jsnum 40.0) (jsnum (-7.0))
             JUndefined JUndefined.

Definition entryC3' : Aircraft :=
  mkAircraft (Some "C3"%string) (jsnum 39.0) (jsnum (-9.0))
             JUndefined JUndefined.

(** An infinite latitude. *)
Definition entryInf : Aircraft :=
  mkAircraft (Some "D4"%string) (JNum (Inf false)) (jsnum (-8.0))
             JUndefined JUndefined.

(** The state after a refresh that stored [entryA1], map ready. *)
Definition worldWithA1 : World := mkWorld [entryA1] [] MapReady [].

(** The coordinates the filter lets through: [true], an infinity or a
    non-zero finite number... *)
Definition keptCoordinate (v : JsVal) : Prop :=
  v = JBool true \/ (exists s, v = JNum (Inf s))
  \/ (exists r, v = JNum (Fin r) /\ r <> 0).

(** ... and those it rejects: absent, [null], [false], NaN or zero. *)
Definition droppedCoordinate (v : JsVal) : Prop :=
  v = JUndefined \/ v = JNull \/ v = JBool false
  \/ v = JNum NaN \/ v = JNum (Fin 0).

(** ** Vocabulary for [Map.vue] and for sequences of runs *)

(** The segment [Map.vue] computes for a marker (no state enters it), and
    the element of [directionLines] built from it. *)
Definition mapSegment (marker : Aircraft) : option Segment :=
  valueOf (MapComponent.projectMarker marker (freshWorld NotMounted)).

Definition mapLine (marker : Aircraft) : option DirectionLine :=
  option_map (mkLine (hex marker)) (mapSegment marker).

(** The test a track passes in [Map.vue]: [marker.track] is truthy in
    [getFlights] and [!track || isNaN(track)] is false in
    [calculateDirectionLine]. *)
Definition trackGuard (track : JsVal) : bool :=
  ToBoolean track && negb (isNaN track).

(** What [console.log(size)] leaves for one marker and for a list of them:
    one line per marker whose track passes the guard. *)
Definition sizeLog (marker : Aircraft) : list ConsoleLine :=
  if trackGuard (track marker) then [LogSize] else [].

Definition sizeLogs (l : list Aircraft) : list ConsoleLine :=
  flat_map sizeLog l.

(** What happens to the component state, one step at a time: a call of
    [getFlights] (made by [onMounted], by the timer of
    [startPeriodicUpdates] or by [updateMap], the button's handler, which
    all call it without arguments) completes with the given outcome of its
    request, or the map component changes its state.  After its last
    [await] a call runs to its end without yielding, so the writes of one
    call are never interleaved with those of another and completed calls
    follow one another. *)
Inductive Event : Type :=
| Completed (net : FetchResult)
| MapBecame (ref : MapRef).

Definition withMapRef (ref : MapRef) (w : World) : World :=
  mkWorld (markers w) (directionLines w) ref (console w).

Definition scopeEvent (e : Event) (w : World) : World :=
  match e with
  | Completed net => fst (RadarScope.getFlights net w)
  | MapBecame ref => withMapRef ref w
  end.

Definition mapEvent (e : Event) (w : World) : World :=
  match e with
  | Completed net => fst (MapComponent.getFlights net w)
  | MapBecame ref => withMapRef ref w
  end.

Definition replay (step : Event -> World -> World) (events : list Event)
  (w : World) : World :=
  fold_left (fun w' e => step e w') events w.

(** Every direction line belongs to a stored marker, in the order of the
    markers: [related] says how a line relates to its marker. *)
Definition linesBelong (related : Aircraft -> DirectionLine -> Prop)
  (w : World) : Prop :=
  exists ms, subsequence ms (markers w)
             /\ Forall2 related ms (directionLines w).

(** The line of the radar scope view carries its marker's identifier and
    starts at its position; the line of [Map.vue] carries the identifier. *)
Definition scopeRelated (marker : Aircraft) (dl : DirectionLine) : Prop :=
  line_hex dl = hex marker /\ seg_start (line dl) = (lat marker, lon marker).

Definition mapRelated (marker : Aircraft) (dl : DirectionLine) : Prop :=
  line_hex dl = hex marker.

(** What every reachable state of a component satisfies. *)
Definition scopeInvariant (w : World) : Prop :=
  Forall (fun marker => hasValidCoordinates marker = true) (markers w)
  /\ linesBelong scopeRelated w.

Definition mapInvariant (w : World) : Prop :=
  Forall (fun marker => hasValidCoordinates marker = true) (markers w)
  /\ linesBelong mapRelated w.

(** * Properties *)

Unset Implicit Arguments.

(** ** Numbers and guards *)

Lemma Rzero_false (r : R) : r <> 0 -> Rzero r = false.
Proof.
  intros H. unfold Rzero.
  destruct (Req_dec_T r 0); [contradiction | reflexivity].
Qed.

Lemma Rzero_true : Rzero 0 = true.
Proof.
  unfold Rzero. destruct (Req_dec_T 0 0); [reflexivity | contradiction].
Qed.

Lemma Rzero_true_iff (r : R) : Rzero r = true <-> r = 0.
Proof.
  unfold Rzero. destruct (Req_dec_T r 0); split; intros; try assumption;
    try reflexivity; try discriminate; contradiction.
Qed.

Lemma div_Fin (x y : R) : y <> 0 -> (Fin x / Fin y)%js = Fin (x / y).
Proof. intros H. simpl. now rewrite (Rzero_false _ H). Qed.

Lemma asin_Fin (r : R) : -1 <= r <= 1 -> Math.asin (Fin r) = Fin (Ratan.asin r).
Proof.
  intros [H1 H2]. unfold Math.asin.
  destruct (Rle_dec (-1) r); [|contradiction].
  destruct (Rle_dec r 1); [reflexivity|contradiction].
Qed.

Lemma PI_neq0' : Rtrigo1.PI <> 0.
Proof. pose proof PI_RGT_0. lra. Qed.

(** Degrees to radians and back, on finite values. *)
Lemma toRad_Fin (d : R) :
  (Fin d * Math.PI / Fin 180)%js = Fin (d * Rtrigo1.PI / 180).
Proof. unfold Math.PI. simpl mul. apply div_Fin. lra. Qed.

(** A truthy value is never NaN under [isNaN]: in this value domain the
    [isNaN] tests of the guards are implied by the truthiness tests. *)
Lemma truthy_not_NaN (v : JsVal) : ToBoolean v = true -> isNaN v = false.
Proof.
  destruct v as [| | b | n]; simpl; try discriminate.
  - destruct b; [reflexivity | discriminate].
  - destruct n; [discriminate | reflexivity | reflexivity].
Qed.

Lemma ToBoolean_zero : ToBoolean (JNum (Fin 0)) = false.
Proof. simpl. now rewrite Rzero_true. Qed.

Lemma ToBoolean_Fin (r : R) : r <> 0 -> ToBoolean (JNum (Fin r)) = true.
Proof. intros H. simpl. now rewrite (Rzero_false _ H). Qed.

(** What a truthy coordinate, track or speed can be. *)
Lemma truthy_cases (v : JsVal) :
  ToBoolean v = true <->
  v = JBool true \/ (exists s, v = JNum (Inf s)) \/
  (exists r, v = JNum (Fin r) /\ r <> 0).
Proof.
  split.
  - destruct v as [| | b | n]; simpl; try discriminate.
    + intros ->. now left.
    + destruct n as [| s | r]; try discriminate.
      * intros _. right. left. now exists s.
      * intros H. right. right. exists r. split; [reflexivity|].
        intros Hr. apply Rzero_true_iff in Hr. rewrite Hr in H. discriminate.
  - intros [-> | [[s ->] | [r [-> Hr]]]]; try reflexivity.
    now apply ToBoolean_Fin.
Qed.

(** ** The projection of the radar scope view *)

Lemma guard_negation (track speed : JsVal) :
  negb (ToBoolean track) || isNaN track
  || negb (ToBoolean speed) || isNaN speed
  = negb (headingGuard track speed).
Proof.
  unfold headingGuard.
  destruct (ToBoolean track), (isNaN track), (ToBoolean speed), (isNaN speed);
    reflexivity.
Qed.

Lemma headingGuard_truthy (track speed : JsVal) :
  headingGuard track speed = ToBoolean track && ToBoolean speed.
Proof.
  unfold headingGuard.
  destruct (ToBoolean track) eqn:Ht, (ToBoolean speed) eqn:Hs; simpl;
    try rewrite (truthy_not_NaN _ Ht); try rewrite (truthy_not_NaN _ Hs);
    try reflexivity; now destruct (isNaN track).
Qed.

Lemma calc_guard_fails (lat lon track speed : JsVal) (w : World) :
  headingGuard track speed = false ->
  RadarScope.calculateDirectionLine lat lon track speed w = (w, Normal None).
Proof.
  intros H. unfold RadarScope.calculateDirectionLine.
  rewrite guard_negation, H. reflexivity.
Qed.

Lemma calc_map_missing (lat lon track speed : JsVal) (w : World) :
  leafletObject (mapRef w) = false ->
  RadarScope.calculateDirectionLine lat lon track speed w = (w, Normal None).
Proof.
  intros H. unfold RadarScope.calculateDirectionLine.
  destruct (_ || _); [reflexivity|].
  unfold bind, read_mapRef. cbv beta iota. rewrite H. reflexivity.
Qed.

(** Past both guards the result is a segment that starts at the raw
    arguments. *)
Lemma calc_passes (lat lon track speed : JsVal) (w : World) :
  headingGuard track speed = true ->
  leafletObject (mapRef w) = true ->
  exists e : Point,
    RadarScope.calculateDirectionLine lat lon track speed w
    = (w, Normal (Some ((lat, lon), e))).
Proof.
  intros Hg Hm. unfold RadarScope.calculateDirectionLine.
  rewrite guard_negation, Hg. cbn [negb].
  unfold bind, read_mapRef. cbv beta iota.
  rewrite Hm. cbn [negb]. eexists. reflexivity.
Qed.

Lemma calc_some_iff (lat lon track speed : JsVal) (w : World) :
  (exists seg, snd (RadarScope.calculateDirectionLine lat lon track speed w)
               = Normal (Some seg))
  <-> drawsHeading (mapRef w) (mkAircraft None lat lon track speed) = true.
Proof.
  unfold drawsHeading; simpl. split.
  - intros [seg H].
    destruct (headingGuard track speed) eqn:Hg.
    + destruct (leafletObject (mapRef w)) eqn:Hm; [reflexivity|].
      rewrite (calc_map_missing lat lon track speed w Hm) in H. discriminate.
    + rewrite (calc_guard_fails lat lon track speed w Hg) in H. discriminate.
  - intros H. apply andb_prop in H as [Hm Hg].
    destruct (calc_passes lat lon track speed w Hg Hm) as [e He].
    exists ((lat, lon), e). now rewrite He.
Qed.

(** The argument of [Math.asin] in the direct-position formula is always
    a sine. *)
Lemma dest_arg_range (phi theta delta : R) :
  -1 <= sin phi * cos delta + cos phi * sin delta * cos theta <= 1.
Proof.
  pose proof (sin2_cos2 phi) as Hp. pose proof (sin2_cos2 delta) as Hd.
  pose proof (COS_bound theta) as Ht. unfold Rsqr in *.
  set (a := sin phi) in *. set (b := cos phi) in *.
  set (c := cos delta) in *. set (d := sin delta) in *.
  set (e := cos theta) in *. clearbody a b c d e.
  assert (H : (a * c + b * d * e) * (a * c + b * d * e) <= 1).
  { assert (H1 : 1 - (a * c + b * d * e) * (a * c + b * d * e)
                 = (a * d * e - b * c) * (a * d * e - b * c)
                   + (a * a + b * b) * (d * d * (1 - e * e))).
    { replace 1 with ((a * a + b * b) * (d * d + c * c)) at 1
        by (rewrite Hp, Hd; ring). ring. }
    pose proof (Rle_0_sqr (a * d * e - b * c)) as H2. unfold Rsqr in H2.
    assert (H3 : 0 <= d * d * (1 - e * e)).
    { apply Rmult_le_pos; [apply Rle_0_sqr | nra]. }
    rewrite Hp in H1. lra. }
  nra.
Qed.

Lemma distance_Fin (s : R) :
  RadarScope.distanceIn1Minute (jsnum s) = Fin (s * 0.0003 / 90).
Proof.
  unfold RadarScope.distanceIn1Minute, jsnum. cbn [ToNumber mul].
  apply div_Fin. lra.
Qed.

Lemma calc_finite (la lo tr sp : R) (w : World) :
  tr <> 0 -> sp <> 0 -> leafletObject (mapRef w) = true ->
  RadarScope.calculateDirectionLine
    (jsnum la) (jsnum lo) (jsnum tr) (jsnum sp) w
  = (w, Normal (Some
      ((jsnum la, jsnum lo),
       (jsnum (deg (destLat (rad la) (rad tr) (sp * 0.0003 / 90))),
        jsnum (deg (destLon (rad la) (rad lo) (rad tr) (sp * 0.0003 / 90))))))).
Proof.
  intros Ht Hs Hm. unfold RadarScope.calculateDirectionLine.
  rewrite guard_negation, headingGuard_truthy. unfold jsnum.
  rewrite (ToBoolean_Fin tr Ht), (ToBoolean_Fin sp Hs).
  cbn [negb andb]. unfold bind, read_mapRef. cbv beta iota.
  rewrite Hm. cbn [negb]. fold (jsnum sp). rewrite distance_Fin.
  cbn [ToNumber]. rewrite !toRad_Fin.
  cbn [Math.sin Math.cos mul add].
  rewrite asin_Fin by apply dest_arg_range.
  cbn [Math.sin Math.atan2 mul sub add].
  unfold Math.PI. rewrite !div_Fin by apply PI_neq0'.
  reflexivity.
Qed.

(** The projection reads the map reference and nothing else. *)
Lemma calc_reads_mapRef (lat lon track speed : JsVal) (w : World) :
  RadarScope.calculateDirectionLine lat lon track speed w
  = (w, Normal (valueOf (RadarScope.calculateDirectionLine
                           lat lon track speed (freshWorld (mapRef w))))).
Proof.
  unfold RadarScope.calculateDirectionLine.
  destruct (_ || _); [reflexivity|].
  unfold bind, read_mapRef. cbv beta iota. cbn [mapRef freshWorld].
  destruct (leafletObject (mapRef w)); reflexivity.
Qed.

Lemma scope_projectMarker (marker : Aircraft) (w : World) :
  RadarScope.projectMarker marker w
  = (w, Normal (scopeSegment (mapRef w) marker)).
Proof.
  unfold scopeSegment, RadarScope.projectMarker. apply calc_reads_mapRef.
Qed.

Lemma scopeSegment_some_iff (ref : MapRef) (marker : Aircraft) :
  (exists seg, scopeSegment ref marker = Some seg)
  <-> drawsHeading ref marker = true.
Proof.
  pose proof (calc_some_iff (lat marker) (lon marker) (track marker)
                            (gs marker) (freshWorld ref)) as H.
  fold (RadarScope.projectMarker marker) in H.
  rewrite scope_projectMarker in H. cbn [snd mapRef freshWorld] in H.
  unfold drawsHeading in *. cbn [track gs] in H. rewrite <- H.
  split; intros [seg Hs]; exists seg; congruence.
Qed.

Lemma scopeSegment_none (ref : MapRef) (marker : Aircraft) :
  drawsHeading ref marker = false -> scopeSegment ref marker = None.
Proof.
  intros H. destruct (scopeSegment ref marker) as [seg|] eqn:E; [|reflexivity].
  assert (Hd : drawsHeading ref marker = true)
    by (apply scopeSegment_some_iff; eauto).
  congruence.
Qed.

(** ** One refresh *)

Lemma subsequence_filter {A : Type} (p : A -> bool) (l : list A) :
  subsequence (filter p l) l.
Proof.
  induction l as [|a l IH]; simpl.
  - constructor.
  - destruct (p a); now constructor.
Qed.

Lemma subsequence_length {A : Type} (l1 l2 : list A) :
  subsequence l1 l2 -> (List.length l1 <= List.length l2)%nat.
Proof. induction 1; simpl; lia. Qed.

Lemma filter_idempotent {A : Type} (p : A -> bool) (l : list A) :
  filter p (filter p l) = filter p l.
Proof.
  induction l as [|a l IH]; simpl; [reflexivity|].
  destruct (p a) eqn:E; simpl; [rewrite E, IH|]; auto.
Qed.

Lemma filter_length_le {A : Type} (p : A -> bool) (l : list A) :
  (List.length (filter p l) <= List.length l)%nat.
Proof.
  induction l as [|a l IH]; simpl; [lia|]. destruct (p a); simpl; lia.
Qed.

(** A callback that only reads the state maps like a pure function. *)
Lemma mapM_reader {A B : Type} (f : A -> M B) (g : World -> A -> B) :
  (forall a w, f a w = (w, Normal (g w a))) ->
  forall l w, mapM f l w = (w, Normal (map (g w) l)).
Proof.
  intros Hf l w. induction l as [|a l IH]; simpl; [reflexivity|].
  unfold bind. rewrite Hf, IH. reflexivity.
Qed.

Lemma logged_nil (w : World) : logged w [] = w.
Proof. destruct w. unfold logged. simpl. now rewrite app_nil_r. Qed.

Lemma logged_app (w : World) (c d : list ConsoleLine) :
  logged (logged w c) d = logged w (c ++ d).
Proof. unfold logged. simpl. now rewrite app_assoc. Qed.

(** ** The filter on raw arrays *)

Lemma filterEntries_objects (ac : list Aircraft) (w : World) :
  filterEntries (map EntryObject ac) w
  = (w, Normal (filter hasValidCoordinates ac)).
Proof.
  induction ac as [|a ac IH]; simpl; [reflexivity|].
  unfold bind. rewrite IH. reflexivity.
Qed.

Lemma validMarkers_objects (ac : list Aircraft) (w : World) :
  validMarkers (DataAc ac) w = (w, Normal (filter hasValidCoordinates ac)).
Proof. apply filterEntries_objects. Qed.

Lemma filterEntries_null (raw : list RawEntry) (w : World) :
  existsb isNull raw = true -> filterEntries raw w = (w, Throw TypeError).
Proof.
  induction raw as [|[| |marker] raw IH]; simpl; intros H.
  - discriminate.
  - reflexivity.
  - now apply IH.
  - unfold bind. now rewrite (IH H).
Qed.

Lemma filterEntries_clean (raw : list RawEntry) (w : World) :
  existsb isNull raw = false ->
  filterEntries raw w
  = (w, Normal (filter hasValidCoordinates (objectsOf raw))).
Proof.
  induction raw as [|[| |marker] raw IH]; simpl; intros H.
  - reflexivity.
  - discriminate.
  - now apply IH.
  - unfold bind. now rewrite (IH H).
Qed.

Section PipelineFacts.

Variable project : Aircraft -> M (option Segment).

(** When the try block throws, the handler logs the error and nothing else
    happens. *)
Lemma getFlights_raises (net : FetchResult) (w : World) :
  raises net = true ->
  exists err,
    getFlights_with project net w
    = (logged w [ErrorFailedToFetch err], Normal tt).
Proof.
  unfold getFlights_with, try_catch, getFlights_try, bind.
  destruct net as [|status body]; simpl.
  - intros _. now exists NetworkFailure.
  - destruct (response_ok status); simpl.
    + destruct body as [|[| | |raw]]; simpl; try discriminate.
      * intros _. now exists SyntaxError.
      * intros _. now exists TypeError.
      * intros _. now exists TypeError.
      * intros Hn. rewrite (filterEntries_null raw w Hn).
        now exists TypeError.
    + intros _. now exists (HttpError status).
Qed.

(** A body without an [ac] array is an empty snapshot. *)
Lemma getFlights_without_ac (status : nat) (w : World) :
  response_ok status = true ->
  getFlights_with project (FetchResponse status (BodyJson DataWithoutAc)) w
  = (mkWorld [] [] (mapRef w) (console w ++ [LogUpdated 0]), Normal tt).
Proof.
  intros Hok.
  unfold getFlights_with, try_catch, getFlights_try, bind. simpl.
  rewrite Hok. reflexivity.
Qed.

(** The projection call may write the console, and nothing else. *)
Hypothesis project_quiet :
  forall marker w, exists r c, project marker w = (logged w c, Normal r).

Lemma lineFor_quiet (marker : Aircraft) (w : World) :
  exists r c, lineFor project marker w = (logged w c, Normal r).
Proof.
  unfold lineFor. destruct (ToBoolean (track marker)).
  - unfold bind. destruct (project_quiet marker w) as (r & c & ->).
    destruct r; eexists; exists c; reflexivity.
  - exists None, []. now rewrite logged_nil.
Qed.

Lemma mapM_lineFor_quiet (l : list Aircraft) (w : World) :
  exists rs c, mapM (lineFor project) l w = (logged w c, Normal rs).
Proof.
  revert w. induction l as [|a l IH]; intros w; simpl.
  - exists [], []. now rewrite logged_nil.
  - unfold bind. destruct (lineFor_quiet a w) as (r & c & ->).
    destruct (IH (logged w c)) as (rs & d & ->).
    exists (r :: rs), (c ++ d). now rewrite logged_app.
Qed.

(** A 2xx response with an [ac] array replaces both lists. *)
Lemma getFlights_replaces (status : nat) (ac : list Aircraft) (w : World) :
  response_ok status = true ->
  exists lines c,
    getFlights_with project (FetchResponse status (BodyJson (DataAc ac))) w
    = (mkWorld (filter hasValidCoordinates ac) lines (mapRef w)
               (console w ++ c), Normal tt).
Proof.
  intros Hok.
  unfold getFlights_with, try_catch, getFlights_try, bind. simpl.
  rewrite Hok. simpl. rewrite filterEntries_objects. simpl.
  set (w1 := mkWorld _ _ _ _).
  destruct (mapM_lineFor_quiet (filter hasValidCoordinates ac) w1)
    as (rs & c & ->).
  simpl. exists (dropNull rs), (c ++ [LogUpdated
    (List.length (filter hasValidCoordinates ac))]).
  now rewrite app_assoc.
Qed.

End PipelineFacts.

(** ** The refresh of the radar scope view, in closed form *)

Lemma scope_lineFor (marker : Aircraft) (w : World) :
  lineFor RadarScope.projectMarker marker w
  = (w, Normal (scopeLine (mapRef w) marker)).
Proof.
  unfold lineFor, scopeLine.
  destruct (ToBoolean (track marker)) eqn:Ht.
  - unfold bind. rewrite scope_projectMarker.
    now destruct (scopeSegment (mapRef w) marker).
  - rewrite scopeSegment_none; [reflexivity|].
    unfold drawsHeading. rewrite headingGuard_truthy, Ht.
    now rewrite andb_false_r.
Qed.

Lemma scope_project_quiet (marker : Aircraft) (w : World) :
  exists r c, RadarScope.projectMarker marker w = (logged w c, Normal r).
Proof.
  exists (scopeSegment (mapRef w) marker), [].
  rewrite logged_nil. apply scope_projectMarker.
Qed.

Lemma scope_refresh (status : nat) (ac : list Aircraft) (w : World) :
  response_ok status = true ->
  RadarScope.getFlights (FetchResponse status (BodyJson (DataAc ac))) w
  = (mkWorld (filter hasValidCoordinates ac)
             (dropNull (map (scopeLine (mapRef w))
                            (filter hasValidCoordinates ac)))
             (mapRef w)
             (console w ++ [LogUpdated
                (List.length (filter hasValidCoordinates ac))]),
     Normal tt).
Proof.
  intros Hok.
  unfold RadarScope.getFlights, getFlights_with, try_catch, getFlights_try,
    bind.
  simpl. rewrite Hok. simpl. rewrite filterEntries_objects. simpl.
  rewrite (mapM_reader _ (fun w => scopeLine (mapRef w)) scope_lineFor).
  reflexivity.
Qed.

(** The lines kept by [dropNull] are those of the markers that draw a
    heading, in order. *)
Lemma scope_lines_match (ref : MapRef) (l : list Aircraft) :
  Forall2 (fun marker dl =>
             line_hex dl = hex marker
             /\ scopeSegment ref marker = Some (line dl))
          (filter (drawsHeading ref) l)
          (dropNull (map (scopeLine ref) l)).
Proof.
  induction l as [|a l IH]; simpl; [constructor|].
  unfold scopeLine at 1.
  destruct (drawsHeading ref a) eqn:Hd.
  - apply scopeSegment_some_iff in Hd as [seg Hs]. rewrite Hs. simpl.
    constructor; [now split | exact IH].
  - rewrite (scopeSegment_none _ _ Hd). simpl. exact IH.
Qed.

(** ** The projection of [Map.vue] *)

Lemma map_project_quiet (marker : Aircraft) (w : World) :
  exists r c, MapComponent.projectMarker marker w = (logged w c, Normal r).
Proof.
  unfold MapComponent.projectMarker, MapComponent.calculateDirectionLine.
  destruct (_ || _).
  - exists None, []. now rewrite logged_nil.
  - unfold bind, console_write. cbv beta iota. eexists. exists [LogSize].
    reflexivity.
Qed.

(** ** Evaluating the guards on concrete entries *)

Ltac eval_guards :=
  cbn [lat lon track gs hex ToBoolean isNaN ToNumber jsnum];
  unfold jsnum;
  cbn [lat lon track gs hex ToBoolean isNaN ToNumber];
  repeat first [ rewrite Rzero_true | rewrite Rzero_false by lra ];
  cbn [negb andb orb].

Lemma valid_entryA1 : hasValidCoordinates entryA1 = true.
Proof. unfold hasValidCoordinates, entryA1. eval_guards; reflexivity. Qed.

Lemma valid_entryNorth : hasValidCoordinates entryNorth = true.
Proof. unfold hasValidCoordinates, entryNorth. eval_guards; reflexivity. Qed.

Lemma draws_entryNorth : drawsHeading MapReady entryNorth = false.
Proof.
  unfold drawsHeading, headingGuard, entryNorth. eval_guards; reflexivity.
Qed.

Lemma ok_200 : response_ok 200 = true.
Proof. reflexivity. Qed.

(** ** Which entries get a direction line *)

(** C1 (code defect, evaluated at a track of 0).  A line should exist
    whenever track and ground speed are finite numbers.  A northbound
    aircraft (track 0, 120 knots) has both and is kept as a marker, yet with
    the map ready it gets no line: the guard [!track] takes the bearing 0
    for a missing track. *)
Lemma north_track_draws_no_line :
  finiteNumber (track entryNorth) /\ finiteNumber (gs entryNorth)
  /\ markers (fst (RadarScope.getFlights (snapshot [entryNorth])
                                         (freshWorld MapReady)))
     = [entryNorth]
  /\ directionLines (fst (RadarScope.getFlights (snapshot [entryNorth])
                                                (freshWorld MapReady)))
     = []
  /\ snd (RadarScope.projectMarker entryNorth (freshWorld MapReady))
     = Normal None.
Proof.
  split; [now exists 0|]. split; [now exists 120|].
  unfold snapshot. rewrite (scope_refresh 200 _ _ ok_200).
  cbn [fst markers directionLines filter mapRef freshWorld].
  rewrite valid_entryNorth. cbn [map dropNull].
  rewrite scope_projectMarker. unfold scopeLine.
  cbn [snd mapRef freshWorld].
  rewrite (scopeSegment_none _ _ draws_entryNorth).
  cbn [option_map dropNull]. now repeat split.
Qed.

(** X14.  After a successful refresh of the radar scope view, the
    direction lines are, in order, the projections of exactly those stored
    markers for which the Leaflet map object is available and whose track
    and ground speed both pass the guard of the projection (truthy and not
    NaN under [isNaN]), each carrying its marker's identifier; the
    projection returns a segment under exactly that condition and null
    otherwise. *)
Theorem heading_line_iff_map_and_truthy
  (w : World) (status : nat) (ac : list Aircraft) :
  response_ok status = true ->
  let w' := fst (RadarScope.getFlights
                   (FetchResponse status (BodyJson (DataAc ac))) w) in
  Forall2 (fun marker dl =>
             line_hex dl = hex marker
             /\ RadarScope.projectMarker marker w
                = (w, Normal (Some (line dl))))
          (filter (drawsHeading (mapRef w)) (markers w'))
          (directionLines w')
  /\ (forall marker,
        (exists seg,
            RadarScope.projectMarker marker w = (w, Normal (Some seg)))
        <-> (leafletObject (mapRef w) = true
             /\ ToBoolean (track marker) = true
             /\ isNaN (track marker) = false
             /\ ToBoolean (gs marker) = true
             /\ isNaN (gs marker) = false))
  /\ (forall marker,
        drawsHeading (mapRef w) marker = false ->
        RadarScope.projectMarker marker w = (w, Normal None)).
Proof.
  intros Hok w'. subst w'. rewrite (scope_refresh status ac w Hok).
  cbn [fst markers directionLines].
  split; [|split].
  - eapply Forall2_impl; [|apply scope_lines_match].
    intros marker dl [Hh Hs]. split; [exact Hh|].
    rewrite scope_projectMarker. now rewrite Hs.
  - intros marker. split.
    + intros [seg Hs]. rewrite scope_projectMarker in Hs.
      assert (Hd : drawsHeading (mapRef w) marker = true).
      { apply scopeSegment_some_iff. exists seg. congruence. }
      apply andb_prop in Hd as [Hm Hg]. unfold headingGuard in Hg.
      apply andb_prop in Hg as [Hg H4]. apply andb_prop in Hg as [Hg H3].
      apply andb_prop in Hg as [H1 H2]. apply negb_true_iff in H2, H4.
      now repeat split.
    + intros (Hm & Ht & Ht' & Hs & Hs').
      assert (Hd : drawsHeading (mapRef w) marker = true).
      { unfold drawsHeading, headingGuard. now rewrite Hm, Ht, Ht', Hs, Hs'. }
      apply scopeSegment_some_iff in Hd as [seg Hd]. exists seg.
      rewrite scope_projectMarker. now rewrite Hd.
  - intros marker Hd. rewrite scope_projectMarker.
    now rewrite (scopeSegment_none _ _ Hd).
Qed.

Lemma heading_line_iff_map_and_truthy_witness :
  response_ok 200 = true
  /\ Forall2 (fun marker dl =>
                line_hex dl = hex marker
                /\ RadarScope.projectMarker marker (freshWorld MapReady)
                   = (freshWorld MapReady, Normal (Some (line dl))))
             (filter (drawsHeading MapReady)
                (markers (fst (RadarScope.getFlights (snapshot [entryA1])
                                                     (freshWorld MapReady)))))
             (directionLines
                (fst (RadarScope.getFlights (snapshot [entryA1])
                                            (freshWorld MapReady)))).
Proof.
  split; [reflexivity|].
  apply (heading_line_iff_map_and_truthy (freshWorld MapReady) 200 [entryA1]).
  reflexivity.
Defined.

(** ** Failed runs *)

(** A 2xx response whose body is an object without [ac] is a malformed
    top-level payload, yet the run replaces the stored snapshot by an empty
    one, in both components. *)
Lemma body_without_ac_clears_snapshot :
  failedRun (FetchResponse 200 (BodyJson DataWithoutAc)) = true
  /\ markers worldWithA1 = [entryA1]
  /\ markers (fst (RadarScope.getFlights
                     (FetchResponse 200 (BodyJson DataWithoutAc))
                     worldWithA1)) = []
  /\ markers (fst (MapComponent.getFlights
                     (FetchResponse 200 (BodyJson DataWithoutAc))
                     worldWithA1)) = [].
Proof.
  split; [reflexivity|]. split; [reflexivity|].
  unfold RadarScope.getFlights, MapComponent.getFlights.
  rewrite !(getFlights_without_ac _ 200 worldWithA1 ok_200).
  split; reflexivity.
Qed.

(** C2 (as amended).  In both components, a run whose try block throws
    (rejected request, status outside 200..299, body that is not JSON, body
    [null], or an [ac] that is not an array) leaves [markers] and
    [directionLines] exactly as they were, logs the error and returns
    normally; a 2xx body without [ac] is not such a run: it stores the
    empty snapshot. *)
Theorem failed_run_keeps_snapshot (net : FetchResult) (w : World) :
  (raises net = true ->
   (exists err,
       RadarScope.getFlights net w
       = (mkWorld (markers w) (directionLines w) (mapRef w)
                  (console w ++ [ErrorFailedToFetch err]), Normal tt))
   /\ (exists err,
       MapComponent.getFlights net w
       = (mkWorld (markers w) (directionLines w) (mapRef w)
                  (console w ++ [ErrorFailedToFetch err]), Normal tt)))
  /\ (forall status,
        response_ok status = true ->
        net = FetchResponse status (BodyJson DataWithoutAc) ->
        RadarScope.getFlights net w
        = (mkWorld [] [] (mapRef w) (console w ++ [LogUpdated 0]), Normal tt)
        /\ MapComponent.getFlights net w
           = (mkWorld [] [] (mapRef w) (console w ++ [LogUpdated 0]),
              Normal tt)).
Proof.
  split.
  - intros Hr. split.
    + apply (getFlights_raises RadarScope.projectMarker net w Hr).
    + apply (getFlights_raises MapComponent.projectMarker net w Hr).
  - intros status Hok ->. split; now apply getFlights_without_ac.
Qed.

Lemma failed_run_keeps_snapshot_witness :
  raises (FetchResponse 503 BodyNotJson) = true
  /\ exists err,
      RadarScope.getFlights (FetchResponse 503 BodyNotJson) worldWithA1
      = (mkWorld [entryA1] [] MapReady [ErrorFailedToFetch err], Normal tt).
Proof.
  split; [reflexivity|].
  apply (failed_run_keeps_snapshot (FetchResponse 503 BodyNotJson)
                                   worldWithA1).
  reflexivity.
Defined.

(** ** What the stored markers satisfy *)

Lemma valid_kept (marker : Aircraft) :
  hasValidCoordinates marker = true
  <-> keptCoordinate (lat marker) /\ keptCoordinate (lon marker).
Proof.
  unfold hasValidCoordinates, keptCoordinate. rewrite <- !truthy_cases.
  split.
  - intros H. apply andb_prop in H as [H _]. apply andb_prop in H as [H _].
    now apply andb_prop in H.
  - intros [H1 H2].
    now rewrite H1, H2, (truthy_not_NaN _ H1), (truthy_not_NaN _ H2).
Qed.

Lemma dropped_falsy (v : JsVal) : droppedCoordinate v <-> ToBoolean v = false.
Proof.
  unfold droppedCoordinate. split.
  - intros [-> | [-> | [-> | [-> | ->]]]]; try reflexivity.
    apply ToBoolean_zero.
  - destruct v as [| | [|] | [| s | r]]; simpl; intros H;
      try discriminate; auto 10.
    apply negb_false_iff, Rzero_true_iff in H. subst r. auto 10.
Qed.

Lemma dropped_invalid (marker : Aircraft) :
  droppedCoordinate (lat marker) \/ droppedCoordinate (lon marker) ->
  hasValidCoordinates marker = false.
Proof.
  unfold hasValidCoordinates. rewrite !dropped_falsy.
  intros [-> | ->]; [reflexivity|]. now rewrite andb_false_r.
Qed.

(** An entry without identifier, two entries with one identifier and an
    entry with an infinite latitude are all stored. *)
Lemma stored_without_id_duplicated_and_infinite :
  markers (fst (RadarScope.getFlights
                  (snapshot [entryNoHex; entryC3; entryC3'; entryInf])
                  (freshWorld MapReady)))
  = [entryNoHex; entryC3; entryC3'; entryInf]
  /\ hex entryNoHex = None
  /\ hex entryC3 = hex entryC3' /\ entryC3 <> entryC3'
  /\ lat entryInf = JNum (Inf false).
Proof.
  unfold snapshot. rewrite (scope_refresh 200 _ _ ok_200).
  cbn [fst markers filter].
  unfold hasValidCoordinates, entryNoHex, entryC3, entryC3', entryInf.
  eval_guards. repeat split.
  intros H. injection H as H _. lra.
Qed.

(** C3 (as amended).  After every successful refresh of the radar scope
    view the stored markers are the entries of the [ac] array, in order,
    whose latitude and longitude are both truthy and not NaN (a non-zero
    finite number, an infinity or [true]); every entry with an absent,
    [null], [false], NaN or zero coordinate is absent from the list; the
    snapshot made of [{hex: "B2", lat: NaN, lon: -8.0}] alone yields no
    marker and no line.  The identifier is neither required nor checked
    for uniqueness. *)
Theorem stored_markers_have_truthy_coordinates
  (w : World) (status : nat) (ac : list Aircraft) :
  response_ok status = true ->
  let w' := fst (RadarScope.getFlights
                   (FetchResponse status (BodyJson (DataAc ac))) w) in
  markers w' = filter hasValidCoordinates ac
  /\ Forall (fun marker => keptCoordinate (lat marker)
                           /\ keptCoordinate (lon marker)) (markers w')
  /\ (forall marker,
        In marker ac ->
        droppedCoordinate (lat marker) \/ droppedCoordinate (lon marker) ->
        ~ In marker (markers w'))
  /\ (ac = [entryB2] -> markers w' = [] /\ directionLines w' = []).
Proof.
  intros Hok w'. subst w'. rewrite (scope_refresh status ac w Hok).
  cbn [fst markers directionLines].
  split; [reflexivity|]. split; [|split].
  - apply Forall_forall. intros marker Hin.
    apply filter_In in Hin as [_ Hv]. now apply valid_kept.
  - intros marker _ Hd Hin. apply filter_In in Hin as [_ Hv].
    rewrite (dropped_invalid marker Hd) in Hv. discriminate.
  - intros ->. cbn [filter].
    replace (hasValidCoordinates entryB2) with false; [now split|].
    symmetry. apply dropped_invalid. left. unfold droppedCoordinate.
    cbn [lat entryB2]. auto 10.
Qed.

Lemma stored_markers_have_truthy_coordinates_witness :
  response_ok 200 = true
  /\ markers (fst (RadarScope.getFlights (snapshot [entryB2; entryA1])
                                         (freshWorld MapReady)))
     = filter hasValidCoordinates [entryB2; entryA1].
Proof.
  split; [reflexivity|].
  apply (stored_markers_have_truthy_coordinates
           (freshWorld MapReady) 200 [entryB2; entryA1]).
  reflexivity.
Defined.

(** ** Ground speed zero *)

(** With the map ready, a finite position and a finite track, a ground
    speed of 0 gives no segment at all. *)
Lemma zero_speed_returns_null :
  RadarScope.calculateDirectionLine (jsnum 41.0) (jsnum (-8.0)) (jsnum 90)
                                    (jsnum 0) (freshWorld MapReady)
  = (freshWorld MapReady, Normal None)
  /\ ~ exists seg,
        snd (RadarScope.calculateDirectionLine
               (jsnum 41.0) (jsnum (-8.0)) (jsnum 90) (jsnum 0)
               (freshWorld MapReady)) = Normal (Some seg)
        /\ seg_end seg = seg_start seg.
Proof.
  assert (H : RadarScope.calculateDirectionLine
                (jsnum 41.0) (jsnum (-8.0)) (jsnum 90) (jsnum 0)
                (freshWorld MapReady)
              = (freshWorld MapReady, Normal None)).
  { apply calc_guard_fails. rewrite headingGuard_truthy. unfold jsnum.
    rewrite ToBoolean_zero. apply andb_false_r. }
  split; [exact H|]. intros [seg [Hs _]]. rewrite H in Hs. discriminate.
Qed.

(** C6 (as amended).  For every position and every track, whatever the
    state, the projection called with a ground speed of 0 does not throw,
    writes nothing and returns null: no segment is produced, degenerate or
    not. *)
Theorem zero_speed_gives_no_segment (lat lon track : JsVal) (w : World) :
  RadarScope.calculateDirectionLine lat lon track (jsnum 0) w
  = (w, Normal None).
Proof.
  apply calc_guard_fails. rewrite headingGuard_truthy. unfold jsnum.
  rewrite ToBoolean_zero. apply andb_false_r.
Qed.

(** ** The validation filter *)

Lemma kept_objects_subsequence (raw : list RawEntry) :
  subsequence (map EntryObject (filter hasValidCoordinates (objectsOf raw)))
              raw.
Proof.
  induction raw as [|[| |marker] raw IH]; simpl.
  - constructor.
  - now constructor.
  - now constructor.
  - destruct (hasValidCoordinates marker); simpl; now constructor.
Qed.

(** C8.  For every raw [ac] array, whatever its elements: the filter
    returns exactly when no element is [null] (a [null] element makes the
    callback throw a TypeError, and nothing is written); whenever it
    returns, filtering its own output again, re-wrapped as an [ac] array,
    returns the same list; the output is an order-preserving subsequence of
    the input and so is no longer than it.  The filter is the same
    expression in both components. *)
Theorem validMarkers_idempotent_subsequence
  (raw : list RawEntry) (w : World) :
  (forall out w',
      validMarkers (DataAcRaw raw) w = (w', Normal out) ->
      w' = w
      /\ validMarkers (DataAc out) w = (w, Normal out)
      /\ subsequence (map EntryObject out) raw
      /\ (List.length out <= List.length raw)%nat)
  /\ (existsb isNull raw = false ->
      exists out, validMarkers (DataAcRaw raw) w = (w, Normal out))
  /\ (existsb isNull raw = true ->
      validMarkers (DataAcRaw raw) w = (w, Throw TypeError)).
Proof.
  split; [|split].
  - intros out w' H. cbn [validMarkers] in H.
    destruct (existsb isNull raw) eqn:Hn.
    + rewrite (filterEntries_null raw w Hn) in H. discriminate.
    + rewrite (filterEntries_clean raw w Hn) in H.
      injection H as <- <-. split; [reflexivity|].
      split; [|split].
      * rewrite validMarkers_objects. now rewrite filter_idempotent.
      * apply kept_objects_subsequence.
      * pose proof (subsequence_length _ _ (kept_objects_subsequence raw))
          as Hl.
        now rewrite length_map in Hl.
  - intros Hn. eexists. cbn [validMarkers]. now apply filterEntries_clean.
  - intros Hn. cbn [validMarkers]. now apply filterEntries_null.
Qed.

Lemma validMarkers_idempotent_subsequence_witness :
  existsb isNull [EntryPrimitive; EntryObject entryB2; EntryObject entryA1]
  = false
  /\ exists out,
      validMarkers
        (DataAcRaw [EntryPrimitive; EntryObject entryB2; EntryObject entryA1])
        (freshWorld MapReady)
      = (freshWorld MapReady, Normal out).
Proof.
  split; [reflexivity|].
  apply (validMarkers_idempotent_subsequence
           [EntryPrimitive; EntryObject entryB2; EntryObject entryA1]
           (freshWorld MapReady)).
  reflexivity.
Defined.

(** ** Dependence on the map widget *)

(** The same four arguments give a segment when the Leaflet object is
    there and null when the map component is not mounted. *)
Lemma projection_depends_on_map :
  (exists seg,
      snd (RadarScope.calculateDirectionLine
             (jsnum 41.0) (jsnum (-8.0)) (jsnum 90) (jsnum 120)
             (freshWorld MapReady)) = Normal (Some seg))
  /\ snd (RadarScope.calculateDirectionLine
            (jsnum 41.0) (jsnum (-8.0)) (jsnum 90) (jsnum 120)
            (freshWorld NotMounted)) = Normal None
  /\ snd (RadarScope.calculateDirectionLine
            (jsnum 41.0) (jsnum (-8.0)) (jsnum 90) (jsnum 120)
            (freshWorld MapReady))
     <> snd (RadarScope.calculateDirectionLine
               (jsnum 41.0) (jsnum (-8.0)) (jsnum 90) (jsnum 120)
               (freshWorld NotMounted)).
Proof.
  assert (H1 : exists seg,
             snd (RadarScope.calculateDirectionLine
                    (jsnum 41.0) (jsnum (-8.0)) (jsnum 90) (jsnum 120)
                    (freshWorld MapReady)) = Normal (Some seg)).
  { apply calc_some_iff. cbn [mapRef freshWorld].
    unfold drawsHeading, headingGuard. eval_guards; reflexivity. }
  assert (H2 : snd (RadarScope.calculateDirectionLine
                      (jsnum 41.0) (jsnum (-8.0)) (jsnum 90) (jsnum 120)
                      (freshWorld NotMounted)) = Normal None).
  { now rewrite calc_map_missing. }
  split; [exact H1|]. split; [exact H2|].
  destruct H1 as [seg H1]. rewrite H1, H2. discriminate.
Qed.

(** C9 (as amended).  The projection writes no state and never throws, and
    its result is a function of its four arguments and of whether the map
    component's Leaflet object is available: two states that agree on that
    give identical results for identical arguments, and without the
    Leaflet object the result is null for every argument. *)
Theorem projection_function_of_arguments_and_map
  (lat lon track speed : JsVal) (w1 w2 : World) :
  leafletObject (mapRef w1) = leafletObject (mapRef w2) ->
  snd (RadarScope.calculateDirectionLine lat lon track speed w1)
  = snd (RadarScope.calculateDirectionLine lat lon track speed w2)
  /\ fst (RadarScope.calculateDirectionLine lat lon track speed w1) = w1
  /\ (exists r, snd (RadarScope.calculateDirectionLine lat lon track speed w1)
                = Normal r)
  /\ (leafletObject (mapRef w1) = false ->
      snd (RadarScope.calculateDirectionLine lat lon track speed w1)
      = Normal None).
Proof.
  intros Hm. split; [|split; [|split]].
  - unfold RadarScope.calculateDirectionLine.
    destruct (_ || _); [reflexivity|].
    unfold bind, read_mapRef. cbv beta iota. rewrite Hm.
    now destruct (leafletObject (mapRef w2)).
  - now rewrite calc_reads_mapRef.
  - rewrite calc_reads_mapRef. eexists. reflexivity.
  - intros H. now rewrite calc_map_missing.
Qed.

Lemma projection_function_of_arguments_and_map_witness :
  leafletObject (mapRef (freshWorld MapReady))
  = leafletObject (mapRef worldWithA1)
  /\ snd (RadarScope.calculateDirectionLine
            (jsnum 41.0) (jsnum (-8.0)) (jsnum 90) (jsnum 120)
            (freshWorld MapReady))
     = snd (RadarScope.calculateDirectionLine
              (jsnum 41.0) (jsnum (-8.0)) (jsnum 90) (jsnum 120)
              worldWithA1).
Proof.
  split; [reflexivity|].
  apply (projection_function_of_arguments_and_map
           (jsnum 41.0) (jsnum (-8.0)) (jsnum 90) (jsnum 120)
           (freshWorld MapReady) worldWithA1).
  reflexivity.
Defined.

(** ** The equator and the prime meridian *)

Lemma run_cases (net : FetchResult) :
  raises net = true
  \/ (exists status,
         response_ok status = true
         /\ net = FetchResponse status (BodyJson DataWithoutAc))
  \/ (exists status ac,
         response_ok status = true
         /\ raises net = false
         /\ (forall project w,
               getFlights_with project net w
               = getFlights_with
                   project (FetchResponse status (BodyJson (DataAc ac))) w)
         /\ (forall w,
               RadarScope.getFlights net w
               = RadarScope.getFlights
                   (FetchResponse status (BodyJson (DataAc ac))) w)
         /\ (forall w,
               MapComponent.getFlights net w
               = MapComponent.getFlights
                   (FetchResponse status (BodyJson (DataAc ac))) w)).
Proof.
  destruct net as [|status [|[| | |raw]]]; simpl; auto;
    destruct (response_ok status) eqn:Hok; simpl; auto.
  - right. left. now exists status.
  - destruct (existsb isNull raw) eqn:Hn; [now left|].
    right. right. exists status, (objectsOf raw).
    assert (Heq : forall project w,
               getFlights_with project
                 (FetchResponse status (BodyJson (DataAcRaw raw))) w
               = getFlights_with project
                   (FetchResponse status (BodyJson (DataAc (objectsOf raw))))
                   w).
    { intros project w.
      unfold getFlights_with, try_catch, getFlights_try, bind. simpl.
      rewrite Hok. simpl.
      now rewrite (filterEntries_clean raw w Hn), filterEntries_objects. }
    split; [exact Hok|].
    split; [reflexivity|].
    split; [exact Heq|]. split; intros w; apply Heq.
Qed.

(** Whatever the outcome of the request, a marker that fails the filter
    and is not stored before a run is not stored after it. *)
Lemma invalid_never_enters
  (project : Aircraft -> M (option Segment))
  (quiet : forall marker w,
      exists r c, project marker w = (logged w c, Normal r))
  (marker : Aircraft) (net : FetchResult) (w : World) :
  hasValidCoordinates marker = false ->
  ~ In marker (markers w) ->
  ~ In marker (markers (fst (getFlights_with project net w))).
Proof.
  intros Hv Hw.
  destruct (run_cases net)
    as [Hr | [(status & Hok & ->)
             | (status & ac & Hok & Hnr & Heq & _ & _)]].
  - destruct (getFlights_raises project net w Hr) as [err ->]. exact Hw.
  - rewrite (getFlights_without_ac project status w Hok). simpl. tauto.
  - rewrite Heq.
    destruct (getFlights_replaces project quiet status ac w Hok)
      as (lines & c & ->).
    cbn [fst markers]. intros Hin. apply filter_In in Hin as [_ Hin].
    congruence.
Qed.

(** C10.  An entry whose latitude is exactly 0 or whose longitude is
    exactly 0 fails the filter, whatever its identifier and its other
    coordinate; it is absent from the filter's output, and in both
    components no run of [getFlights] ever puts it in [markers]. *)
Theorem zero_coordinate_is_dropped (marker : Aircraft) :
  lat marker = jsnum 0 \/ lon marker = jsnum 0 ->
  hasValidCoordinates marker = false
  /\ (forall ac, ~ In marker (filter hasValidCoordinates ac))
  /\ (forall net w,
        ~ In marker (markers w) ->
        ~ In marker (markers (fst (RadarScope.getFlights net w)))
        /\ ~ In marker (markers (fst (MapComponent.getFlights net w)))).
Proof.
  intros Hz.
  assert (Hv : hasValidCoordinates marker = false).
  { apply dropped_invalid. unfold droppedCoordinate, jsnum in *.
    destruct Hz as [-> | ->]; auto 10. }
  split; [exact Hv|]. split.
  - intros ac Hin. apply filter_In in Hin as [_ Hin]. congruence.
  - intros net w Hw. split.
    + apply (invalid_never_enters _ scope_project_quiet marker net w Hv Hw).
    + apply (invalid_never_enters _ map_project_quiet marker net w Hv Hw).
Qed.

Lemma zero_coordinate_is_dropped_witness :
  (lat (mkAircraft (Some "E5"%string) (jsnum 0) (jsnum (-8.0))
                   (jsnum 90) (jsnum 120)) = jsnum 0
   \/ lon (mkAircraft (Some "E5"%string) (jsnum 0) (jsnum (-8.0))
                      (jsnum 90) (jsnum 120)) = jsnum 0)
  /\ hasValidCoordinates
       (mkAircraft (Some "E5"%string) (jsnum 0) (jsnum (-8.0))
                   (jsnum 90) (jsnum 120)) = false.
Proof.
  split; [left; reflexivity|].
  apply (zero_coordinate_is_dropped
           (mkAircraft (Some "E5"%string) (jsnum 0) (jsnum (-8.0))
                       (jsnum 90) (jsnum 120))).
  left. reflexivity.
Defined.

(** ** Real analysis for the sample projections *)

Lemma PI_gt_3 : 3 < PI.
Proof. pose proof PI2_3_2. lra. Qed.

Lemma Ratan2_pos (y x : R) : 0 < y -> 0 < Math.Ratan2 y x.
Proof.
  intros Hy. unfold Math.Ratan2. pose proof PI_RGT_0 as Hpi.
  destruct (Rlt_dec 0 x) as [Hx|Hx].
  - rewrite <- atan_0. apply atan_increasing.
    apply Rdiv_lt_0_compat; assumption.
  - destruct (Rlt_dec x 0) as [Hx'|Hx'].
    + destruct (Rlt_dec y 0); [lra|].
      pose proof (atan_bound (y / x)). lra.
    + destruct (Rlt_dec 0 y); lra.
Qed.

Lemma one_minus_cos_le (d : R) : 0 <= d <= PI -> 1 - cos d <= d * d / 2.
Proof.
  intros [Hd Hpi]. replace d with (2 * (d / 2)) at 1 by field.
  rewrite cos_2a_sin.
  assert (H0 : 0 <= sin (d / 2)) by (apply sin_ge_0; lra).
  assert (H1 : sin (d / 2) <= d / 2).
  { destruct Hd as [Hd | <-].
    - left. apply sin_lt_x. lra.
    - replace (0 / 2) with 0 by field. rewrite sin_0. lra. }
  nra.
Qed.

Lemma sin_lower (e : R) : 0 <= e <= 1 -> e - e * e * e / 6 <= sin e.
Proof.
  intros [H0 H1]. pose proof PI_gt_3.
  assert (Hs := SIN e H0 ltac:(lra)). destruct Hs as [Hs _].
  unfold sin_lb, sin_approx, sin_term in Hs. cbn [sum_f_R0] in Hs.
  rewrite !INR_IZR_INZ in Hs.
  cbn [Nat.mul Nat.add Factorial.fact Z.of_nat Pos.of_succ_nat Pos.succ pow]
    in Hs.
  assert (Hq : 0 <= e * e <= 1) by nra.
  assert (Hp : 0 <= e * (e * (e * (e * e)))).
  { repeat apply Rmult_le_pos; lra. }
  set (p := e * (e * (e * (e * e)))) in *.
  replace (e * (e * (e * (e * (e * (e * (e * 1)))))))
    with (p * (e * e)) in Hs by (unfold p; ring).
  replace (e * (e * (e * (e * (e * 1))))) with p in Hs by (unfold p; ring).
  nra.
Qed.

Lemma cos_PI4_lower : 7 / 10 < cos (PI / 4).
Proof.
  rewrite cos_PI4.
  assert (H2 : sqrt 2 * sqrt 2 = 2) by (apply sqrt_sqrt; lra).
  assert (H0 : 0 < sqrt 2) by (apply sqrt_lt_R0; lra).
  assert (H1 : sqrt 2 < 142 / 100) by nra.
  apply Rmult_lt_reg_r with (sqrt 2); [exact H0|].
  replace (1 / sqrt 2 * sqrt 2) with 1 by (field; lra). lra.
Qed.

Lemma rad_90 : rad 90 = PI / 2.
Proof. unfold rad. field. Qed.

(** The eastbound sample: end latitude. *)
Lemma eastbound_latitude :
  41 - 1 / 100000 < deg (destLat (rad 41) (rad 90) (120 * 0.0003 / 90)) < 41.
Proof.
  pose proof PI_gt_3 as Hpi3. pose proof PI_4 as Hpi4.
  unfold destLat. rewrite rad_90, cos_PI2.
  replace (120 * 0.0003 / 90) with 0.0004 by lra.
  set (phi := rad 41). set (d := 0.0004).
  replace (sin phi * cos d + cos phi * sin d * 0) with (sin phi * cos d)
    by ring.
  assert (Hphi : 0 < phi < PI / 4) by (unfold phi, rad; lra).
  assert (Hsphi : 0 < sin phi <= 1).
  { split; [apply sin_gt_0; lra | apply SIN_bound]. }
  assert (Hcd : 1 - d * d / 2 <= cos d < 1).
  { split; [pose proof (one_minus_cos_le d); unfold d in *; lra|].
    replace d with (2 * (d / 2)) by field. rewrite cos_2a_sin.
    assert (0 < sin (d / 2)) by (apply sin_gt_0; unfold d; lra). nra. }
  assert (Hcd0 : 0 < cos d) by (unfold d in *; lra).
  set (x := sin phi * cos d).
  assert (Hx : -1 <= x <= 1) by (unfold x; nra).
  assert (Hx' : sin phi - d * d / 2 <= x < sin phi) by (unfold x; nra).
  pose proof (asin_bound x) as Hb. pose proof (sin_asin x Hx) as Hsa.
  set (phi2 := Ratan.asin x) in *.
  assert (Hup : phi2 < phi).
  { apply sin_increasing_0; lra. }
  set (e := 1 / 100000 * PI / 180).
  assert (He : 1 / 100000 * 3 / 180 < e < 1 / 1000000) by (unfold e; lra).
  assert (Hse : 99 / 100 * e <= sin e).
  { pose proof (sin_lower e ltac:(lra)). nra. }
  assert (Hce : cos e <= 1) by apply COS_bound.
  assert (Hcphi : 7 / 10 < cos phi).
  { pose proof cos_PI4_lower.
    assert (cos (PI / 4) < cos phi) by (apply cos_decreasing_1; lra). lra. }
  assert (Hlow : phi - e < phi2).
  { apply sin_increasing_0; try lra.
    rewrite sin_minus, Hsa. unfold d in *. nra. }
  unfold deg. unfold phi, rad, e in *.
  split.
  - apply Rmult_lt_reg_r with (PI / 180); [lra|].
    replace (phi2 * 180 / PI * (PI / 180)) with phi2 by (field; lra). lra.
  - apply Rmult_lt_reg_r with (PI / 180); [lra|].
    replace (phi2 * 180 / PI * (PI / 180)) with phi2 by (field; lra). lra.
Qed.

Lemma eastbound_longitude :
  -8 < deg (destLon (rad 41) (rad (-8)) (rad 90) (120 * 0.0003 / 90)).
Proof.
  pose proof PI_gt_3 as Hpi3. pose proof PI_4 as Hpi4.
  unfold destLon. rewrite rad_90, sin_PI2.
  set (a := Math.Ratan2 _ _).
  assert (Ha : 0 < a).
  { apply Ratan2_pos.
    assert (0 < sin (120 * 0.0003 / 90)) by (apply sin_gt_0; lra).
    assert (0 < cos (rad 41)) by (apply cos_gt_0; unfold rad; lra).
    nra. }
  unfold deg, rad.
  apply Rmult_lt_reg_r with (PI / 180); [lra|].
  replace ((-8 * PI / 180 + a) * 180 / PI * (PI / 180))
    with (-8 * PI / 180 + a) by (field; lra).
  lra.
Qed.

(** ** The angular distance *)

(** C4 (code defect, evaluated at 120 knots).  The projection uses
    [120 * 0.0003 / 90 = 0.0004] rad as angular distance.  That is neither
    the two minutes of arc of the specification
    ([120 * 1 * PI / 648000], above 0.0005 rad) nor the code's own
    degrees-per-minute figure [120 * 0.0003] turned into radians
    ([* PI / 180], above 0.0006 rad): the division by 90 stands where the
    conversion from degrees to radians belongs. *)
Lemma distance_at_120_knots :
  RadarScope.distanceIn1Minute (jsnum 120) = Fin 0.0004
  /\ 0.0004 < 0.0005 < 120 * 1 * PI / 648000
  /\ 0.0004 < 0.0006 < 120 * 0.0003 * PI / 180
  /\ RadarScope.distanceIn1Minute (jsnum 120)
     <> Fin (120 * 1 * PI / 648000).
Proof.
  pose proof PI_gt_3 as Hpi. rewrite distance_Fin.
  split; [f_equal; lra|]. split; [lra|]. split; [lra|].
  intros H. injection H as H. lra.
Qed.

(** ** The eastbound sample *)

(** Before the map component is mounted the sample entry is stored and no
    segment is produced for it. *)
Lemma eastbound_sample_without_map :
  markers (fst (RadarScope.getFlights (snapshot [entryA1])
                                      (freshWorld NotMounted)))
  = [entryA1]
  /\ directionLines (fst (RadarScope.getFlights (snapshot [entryA1])
                                                (freshWorld NotMounted)))
     = [].
Proof.
  unfold snapshot. rewrite (scope_refresh 200 _ _ ok_200).
  cbn [fst markers directionLines filter mapRef freshWorld].
  rewrite valid_entryA1. cbn [map dropNull]. unfold scopeLine.
  rewrite scopeSegment_none; [split; reflexivity|].
  reflexivity.
Qed.

(** C5 (as amended).  When the Leaflet map object is available, a
    successful refresh with the single entry
    [{hex: "A1", lat: 41.0, lon: -8.0, track: 90, gs: 120}] produces
    exactly one direction line; it carries the identifier "A1", starts at
    (41.0, -8.0), ends at a longitude strictly greater than -8.0 and at a
    latitude below 41.0 by less than 0.00001 degree (in exact real
    arithmetic). *)
Theorem eastbound_sample_segment (w : World) (status : nat) :
  response_ok status = true ->
  leafletObject (mapRef w) = true ->
  exists elat elon : R,
    directionLines
      (fst (RadarScope.getFlights
              (FetchResponse status (BodyJson (DataAc [entryA1]))) w))
    = [mkLine (Some "A1"%string)
              ((jsnum 41.0, jsnum (-8.0)), (jsnum elat, jsnum elon))]
    /\ -8.0 < elon
    /\ 41.0 - 1 / 100000 < elat < 41.0.
Proof.
  intros Hok Hm.
  exists (deg (destLat (rad 41) (rad 90) (120 * 0.0003 / 90))),
         (deg (destLon (rad 41) (rad (-8)) (rad 90) (120 * 0.0003 / 90))).
  split; [|split].
  - rewrite (scope_refresh status _ w Hok).
    cbn [fst directionLines filter]. rewrite valid_entryA1.
    cbn [map dropNull]. unfold scopeLine, scopeSegment.
    rewrite scope_projectMarker. cbn [mapRef freshWorld].
    unfold scopeSegment, RadarScope.projectMarker, entryA1.
    cbn [lat lon track gs hex].
    replace 41.0 with 41 by lra. replace (-8.0) with (-8) by lra.
    rewrite (calc_finite 41 (-8) 90 120) by (first [lra | exact Hm]).
    reflexivity.
  - replace (-8.0) with (-8) by lra. apply eastbound_longitude.
  - replace 41.0 with 41 by lra. apply eastbound_latitude.
Qed.

Lemma eastbound_sample_segment_witness :
  response_ok 200 = true
  /\ leafletObject (mapRef (freshWorld MapReady)) = true
  /\ exists elat elon : R,
      directionLines
        (fst (RadarScope.getFlights (snapshot [entryA1])
                                    (freshWorld MapReady)))
      = [mkLine (Some "A1"%string)
                ((jsnum 41.0, jsnum (-8.0)), (jsnum elat, jsnum elon))]
      /\ -8.0 < elon
      /\ 41.0 - 1 / 100000 < elat < 41.0.
Proof.
  split; [reflexivity|]. split; [reflexivity|].
  apply (eastbound_sample_segment (freshWorld MapReady) 200); reflexivity.
Defined.

(** ** Where a segment starts *)

(** On finite arguments the projection of [Map.vue] starts at the point
    reached after 0.00001 rad along the track and runs 0.0012 rad further. *)
Lemma map_calc_finite (la lo tr : R) (w : World) :
  tr <> 0 ->
  MapComponent.calculateDirectionLine
    (jsnum la) (jsnum lo) (jsnum tr) MapComponent.defaultDistance w
  = (logged w [LogSize],
     Normal (Some
       ((jsnum (deg (destLat (rad la) (rad tr) 0.00001)),
         jsnum (deg (destLon (rad la) (rad lo) (rad tr) 0.00001))),
        (jsnum (deg (destLat (destLat (rad la) (rad tr) 0.00001) (rad tr)
                             (0.001 - -0.0002))),
         jsnum (deg (destLon (destLat (rad la) (rad tr) 0.00001)
                             (destLon (rad la) (rad lo) (rad tr) 0.00001)
                             (rad tr) (0.001 - -0.0002))))))).
Proof.
  intros Ht. unfold MapComponent.calculateDirectionLine.
  unfold jsnum. rewrite (ToBoolean_Fin tr Ht).
  cbn [negb orb isNaN ToNumber]. rewrite !toRad_Fin.
  unfold bind, console_write. cbv beta iota.
  unfold MapComponent.defaultDistance, MapComponent.size.
  cbn [Math.sin Math.cos mul add sub].
  rewrite (asin_Fin _ (dest_arg_range _ _ _)).
  cbn [Math.sin Math.cos Math.atan2 mul add sub].
  rewrite (asin_Fin _ (dest_arg_range _ _ _)).
  cbn [Math.sin Math.cos Math.atan2 mul add sub].
  unfold Math.PI. rewrite !div_Fin by apply PI_neq0'.
  reflexivity.
Qed.

(** In [Map.vue] the segment drawn for an eastbound aircraft at
    (41.0, -8.0) starts east of -8.0, not at the aircraft position. *)
Lemma map_component_segment_starts_off_position :
  exists seg,
    snd (MapComponent.calculateDirectionLine
           (jsnum 41.0) (jsnum (-8.0)) (jsnum 90)
           MapComponent.defaultDistance (freshWorld MapReady))
    = Normal (Some seg)
    /\ seg_start seg <> (jsnum 41.0, jsnum (-8.0)).
Proof.
  pose proof PI_gt_3 as Hpi3. pose proof PI_4 as Hpi4.
  rewrite (map_calc_finite 41.0 (-8.0) 90 (freshWorld MapReady))
    by lra.
  eexists. split; [reflexivity|].
  cbn [snd seg_start fst]. unfold jsnum. intros H.
  injection H as _ H.
  assert (Hlt : -8.0 < deg (destLon (rad 41.0) (rad (-8.0)) (rad 90) 0.00001)).
  { unfold destLon. rewrite rad_90, sin_PI2.
    set (a := Math.Ratan2 _ _).
    assert (Ha : 0 < a).
    { apply Ratan2_pos.
      assert (0 < sin 0.00001) by (apply sin_gt_0; lra).
      assert (0 < cos (rad 41.0)) by (apply cos_gt_0; unfold rad; lra).
      nra. }
    unfold deg, rad.
    apply Rmult_lt_reg_r with (PI / 180); [lra|].
    replace ((-8.0 * PI / 180 + a) * 180 / PI * (PI / 180))
      with (-8.0 * PI / 180 + a) by (field; lra).
    lra. }
  lra.
Qed.

(** C7 (as amended).  Every segment returned by the projection of the
    radar scope view starts exactly at the [lat] and [lon] it was given,
    with no offset; the projection of [Map.vue] instead starts, on finite
    arguments, at the point 0.00001 rad further along the track. *)
Theorem scope_segment_starts_at_position
  (lat lon track speed : JsVal) (w : World) (seg : Segment)
  (la lo tr : R) :
  (snd (RadarScope.calculateDirectionLine lat lon track speed w)
   = Normal (Some seg) ->
   seg_start seg = (lat, lon))
  /\ (tr <> 0 ->
      exists seg',
        snd (MapComponent.calculateDirectionLine
               (jsnum la) (jsnum lo) (jsnum tr)
               MapComponent.defaultDistance w) = Normal (Some seg')
        /\ seg_start seg'
           = (jsnum (deg (destLat (rad la) (rad tr) 0.00001)),
              jsnum (deg (destLon (rad la) (rad lo) (rad tr) 0.00001)))).
Proof.
  split.
  - intros H.
    destruct (headingGuard track speed) eqn:Hg.
    + destruct (leafletObject (mapRef w)) eqn:Hm.
      * destruct (calc_passes lat lon track speed w Hg Hm) as [e He].
        rewrite He in H. cbn [snd] in H. injection H as <-. reflexivity.
      * rewrite (calc_map_missing lat lon track speed w Hm) in H.
        discriminate.
    + rewrite (calc_guard_fails lat lon track speed w Hg) in H.
      discriminate.
  - intros Ht. rewrite (map_calc_finite la lo tr w Ht).
    eexists. split; reflexivity.
Qed.

Lemma scope_segment_starts_at_position_witness :
  snd (RadarScope.calculateDirectionLine
         (jsnum 41) (jsnum (-8)) (jsnum 90) (jsnum 120)
         (freshWorld MapReady))
  = Normal (Some
      ((jsnum 41, jsnum (-8)),
       (jsnum (deg (destLat (rad 41) (rad 90) (120 * 0.0003 / 90))),
        jsnum (deg (destLon (rad 41) (rad (-8)) (rad 90)
                            (120 * 0.0003 / 90))))))
  /\ seg_start
       ((jsnum 41, jsnum (-8)),
        (jsnum (deg (destLat (rad 41) (rad 90) (120 * 0.0003 / 90))),
         jsnum (deg (destLon (rad 41) (rad (-8)) (rad 90)
                             (120 * 0.0003 / 90)))))
     = (jsnum 41, jsnum (-8)).
Proof.
  assert (H : snd (RadarScope.calculateDirectionLine
                     (jsnum 41) (jsnum (-8)) (jsnum 90) (jsnum 120)
                     (freshWorld MapReady))
              = Normal (Some
                  ((jsnum 41, jsnum (-8)),
                   (jsnum (deg (destLat (rad 41) (rad 90)
                                        (120 * 0.0003 / 90))),
                    jsnum (deg (destLon (rad 41) (rad (-8)) (rad 90)
                                        (120 * 0.0003 / 90))))))).
  { rewrite (calc_finite 41 (-8) 90 120 (freshWorld MapReady));
      [reflexivity | lra | lra | reflexivity]. }
  split; [exact H|].
  exact (proj1 (scope_segment_starts_at_position
                  (jsnum 41) (jsnum (-8)) (jsnum 90) (jsnum 120)
                  (freshWorld MapReady) _ 0 0 1) H).
Defined.

(** * Further properties of the two components *)

(** ** Geometry of the direct-position formula *)

(** The cosine of the two-argument arctangent, cleared of its
    denominator. *)
Lemma cos_Ratan2 (y x r : R) :
  0 <= r -> r * r = x * x + y * y -> r * cos (Math.Ratan2 y x) = x.
Proof.
  intros Hr Hrr. unfold Math.Ratan2.
  assert (Hs : forall t, 0 < sqrt (1 + Rsqr t)).
  { intros t. apply sqrt_lt_R0. pose proof (Rle_0_sqr t). lra. }
  assert (Hss : forall t, sqrt (1 + Rsqr t) * sqrt (1 + Rsqr t) = 1 + Rsqr t).
  { intros t. apply sqrt_sqrt. pose proof (Rle_0_sqr t). lra. }
  destruct (Rlt_dec 0 x) as [Hx|Hx].
  - rewrite cos_atan. set (t := y / x). specialize (Hs t). specialize (Hss t).
    assert (Ht : r * r = (x * sqrt (1 + Rsqr t)) * (x * sqrt (1 + Rsqr t))).
    { replace ((x * sqrt (1 + Rsqr t)) * (x * sqrt (1 + Rsqr t)))
        with (x * x * (sqrt (1 + Rsqr t) * sqrt (1 + Rsqr t))) by ring.
      rewrite Hss, Hrr. unfold t, Rsqr. field. lra. }
    assert (Hre : r = x * sqrt (1 + Rsqr t)).
    { apply Rsqr_inj; [lra | nra | exact Ht]. }
    rewrite Hre. field. lra.
  - destruct (Rlt_dec x 0) as [Hx'|Hx'].
    + set (t := y / x). specialize (Hs t). specialize (Hss t).
      assert (Ht : r * r = (- x * sqrt (1 + Rsqr t)) * (- x * sqrt (1 + Rsqr t))).
      { replace ((- x * sqrt (1 + Rsqr t)) * (- x * sqrt (1 + Rsqr t)))
          with (x * x * (sqrt (1 + Rsqr t) * sqrt (1 + Rsqr t))) by ring.
        rewrite Hss, Hrr. unfold t, Rsqr. field. lra. }
      assert (Hre : r = - x * sqrt (1 + Rsqr t)).
      { apply Rsqr_inj; [lra | nra | exact Ht]. }
      assert (Hc : cos (atan t - PI) = - cos (atan t)).
      { rewrite cos_minus, cos_PI, sin_PI. ring. }
      destruct (Rlt_dec y 0).
      * fold t. rewrite Hc, cos_atan, Hre. field. lra.
      * fold t. rewrite neg_cos, cos_atan, Hre. field. lra.
    + assert (x = 0) by lra. subst x.
      destruct (Rlt_dec 0 y).
      * rewrite cos_PI2. ring.
      * destruct (Rlt_dec y 0).
        -- rewrite cos_neg, cos_PI2. ring.
        -- assert (y = 0) by lra. subst y. rewrite cos_0.
           assert (r = 0) by nra. lra.
Qed.

(** The spherical law of cosines between a point and its destination: the
    central angle between them is the distance travelled. *)
Lemma central_angle (phi lam theta delta : R) :
  - (PI / 2) <= phi <= PI / 2 ->
  sin phi * sin (destLat phi theta delta)
  + cos phi * cos (destLat phi theta delta)
    * cos (destLon phi lam theta delta - lam)
  = cos delta.
Proof.
  intros Hphi. unfold destLon.
  pose proof (dest_arg_range phi theta delta) as HA.
  assert (Hs2 : sin (destLat phi theta delta)
                = sin phi * cos delta + cos phi * sin delta * cos theta).
  { unfold destLat. now apply sin_asin. }
  assert (Hc2 : 0 <= cos (destLat phi theta delta)).
  { unfold destLat. pose proof (asin_bound
      (sin phi * cos delta + cos phi * sin delta * cos theta)).
    apply cos_ge_0; lra. }
  assert (Hc1 : 0 <= cos phi) by (apply cos_ge_0; lra).
  pose proof (sin2_cos2 (destLat phi theta delta)) as H2.
  pose proof (sin2_cos2 phi) as Hp. pose proof (sin2_cos2 delta) as Hd.
  pose proof (sin2_cos2 theta) as Ht. unfold Rsqr in *.
  rewrite Hs2 in *.
  set (A := sin phi * cos delta + cos phi * sin delta * cos theta) in *.
  set (c2 := cos (destLat phi theta delta)) in *.
  replace (lam + Math.Ratan2 (sin theta * sin delta * cos phi)
                             (cos delta - sin phi * A) - lam)
    with (Math.Ratan2 (sin theta * sin delta * cos phi)
                      (cos delta - sin phi * A)) by ring.
  rewrite (Rmult_assoc (cos phi) c2).
  rewrite <- (Rmult_assoc (cos phi) c2), (cos_Ratan2 _ _ (cos phi * c2)).
  - ring.
  - now apply Rmult_le_pos.
  - set (a := sin phi) in *. set (b := cos phi) in *.
    set (c := cos delta) in *. set (d := sin delta) in *.
    set (e := cos theta) in *. set (f := sin theta) in *.
    assert (Hc2' : c2 * c2 = 1 - A * A) by lra.
    replace (b * c2 * (b * c2)) with (b * b * (c2 * c2)) by ring.
    rewrite Hc2'.
    assert (Hid : (c - a * A) * (c - a * A) + f * d * b * (f * d * b)
                  - b * b * (1 - A * A)
                  = b * b * (d * d + c * c - 1)
                    + b * b * (d * d) * (f * f + e * e - 1)
                    + (a * a + b * b - 1) * (A * A - c * c)).
    { unfold A. ring. }
    rewrite Hd, Ht, Hp in Hid. lra.
Qed.

Lemma rad_deg (x : R) : rad (deg x) = x.
Proof. unfold deg, rad. field. apply PI_neq0'. Qed.

(** ** The projection and the refresh of [Map.vue], in closed form *)

Lemma map_guard (track : JsVal) :
  negb (ToBoolean track) || isNaN track = negb (trackGuard track).
Proof.
  unfold trackGuard. now destruct (ToBoolean track), (isNaN track).
Qed.

Lemma map_calc_closed (vlat vlon vtrack : JsVal) (w : World) :
  MapComponent.calculateDirectionLine vlat vlon vtrack
    MapComponent.defaultDistance w
  = (logged w (if trackGuard vtrack then [LogSize] else []),
     Normal (valueOf (MapComponent.calculateDirectionLine vlat vlon vtrack
                        MapComponent.defaultDistance
                        (freshWorld NotMounted)))).
Proof.
  unfold MapComponent.calculateDirectionLine. rewrite map_guard.
  destruct (trackGuard vtrack); cbn [negb].
  - reflexivity.
  - unfold ret. now rewrite logged_nil.
Qed.

Lemma map_projectMarker_closed (marker : Aircraft) (w : World) :
  MapComponent.projectMarker marker w
  = (logged w (sizeLog marker), Normal (mapSegment marker)).
Proof.
  unfold mapSegment, MapComponent.projectMarker, sizeLog.
  apply map_calc_closed.
Qed.

Lemma mapSegment_some_iff (marker : Aircraft) :
  (exists seg, mapSegment marker = Some seg)
  <-> trackGuard (track marker) = true.
Proof.
  unfold mapSegment, MapComponent.projectMarker,
    MapComponent.calculateDirectionLine.
  rewrite map_guard. destruct (trackGuard (track marker)); cbn [negb].
  - split; [reflexivity|]. intros _. eexists. reflexivity.
  - split; [|discriminate]. intros [seg H]. discriminate.
Qed.

Lemma mapSegment_none (marker : Aircraft) :
  trackGuard (track marker) = false -> mapSegment marker = None.
Proof.
  intros H. destruct (mapSegment marker) as [seg|] eqn:E; [|reflexivity].
  assert (trackGuard (track marker) = true)
    by (apply mapSegment_some_iff; eauto).
  congruence.
Qed.

Lemma map_lineFor (marker : Aircraft) (w : World) :
  lineFor MapComponent.projectMarker marker w
  = (logged w (sizeLog marker), Normal (mapLine marker)).
Proof.
  unfold lineFor, mapLine.
  destruct (ToBoolean (track marker)) eqn:Ht.
  - unfold bind. rewrite map_projectMarker_closed.
    now destruct (mapSegment marker).
  - assert (Hg : trackGuard (track marker) = false)
      by (unfold trackGuard; now rewrite Ht).
    rewrite (mapSegment_none marker Hg). unfold sizeLog. rewrite Hg.
    unfold ret. now rewrite logged_nil.
Qed.

Lemma map_mapM_lineFor (l : list Aircraft) (w : World) :
  mapM (lineFor MapComponent.projectMarker) l w
  = (logged w (sizeLogs l), Normal (map mapLine l)).
Proof.
  revert w. induction l as [|a l IH]; intros w; simpl.
  - unfold ret. now rewrite logged_nil.
  - unfold bind. rewrite map_lineFor, IH, logged_app. reflexivity.
Qed.

Lemma map_refresh (status : nat) (ac : list Aircraft) (w : World) :
  response_ok status = true ->
  MapComponent.getFlights (FetchResponse status (BodyJson (DataAc ac))) w
  = (mkWorld (filter hasValidCoordinates ac)
             (dropNull (map mapLine (filter hasValidCoordinates ac)))
             (mapRef w)
             (console w ++ sizeLogs (filter hasValidCoordinates ac)
                ++ [LogUpdated
                      (List.length (filter hasValidCoordinates ac))]),
     Normal tt).
Proof.
  intros Hok.
  unfold MapComponent.getFlights, getFlights_with, try_catch, getFlights_try,
    bind.
  simpl. rewrite Hok. simpl. rewrite filterEntries_objects. simpl.
  rewrite map_mapM_lineFor. simpl.
  now rewrite app_assoc.
Qed.

Lemma map_lines_match (l : list Aircraft) :
  Forall2 (fun marker dl =>
             line_hex dl = hex marker
             /\ mapSegment marker = Some (line dl))
          (filter (fun marker => trackGuard (track marker)) l)
          (dropNull (map mapLine l)).
Proof.
  induction l as [|a l IH]; simpl; [constructor|].
  unfold mapLine at 1.
  destruct (trackGuard (track a)) eqn:Ht.
  - apply mapSegment_some_iff in Ht as [seg Hs]. rewrite Hs. simpl.
    constructor; [now split | exact IH].
  - rewrite (mapSegment_none a Ht). simpl. exact IH.
Qed.

Lemma sizeLogs_repeat (l : list Aircraft) :
  sizeLogs l
  = repeat LogSize (List.length (dropNull (map mapLine l))).
Proof.
  induction l as [|a l IH]; simpl; [reflexivity|].
  unfold sizeLog at 1, mapLine at 1.
  destruct (trackGuard (track a)) eqn:Ht.
  - apply mapSegment_some_iff in Ht as [seg Hs]. rewrite Hs. simpl.
    now rewrite IH.
  - rewrite (mapSegment_none a Ht). simpl. exact IH.
Qed.

(** X5.  The projection of [Map.vue] returns a segment exactly when its
    guard lets the track through, that is when the track is truthy and is
    not NaN under [isNaN]; otherwise it returns null.  It never throws, its
    result is the same in every state, mounted map or not, and its only
    effect is one [console.log(size)] per segment returned. *)
Theorem map_projection_iff_track_passes_guard
  (vlat vlon vtrack : JsVal) (w w2 : World) :
  ((exists seg,
       snd (MapComponent.calculateDirectionLine
              vlat vlon vtrack MapComponent.defaultDistance w)
       = Normal (Some seg))
   <-> ToBoolean vtrack = true /\ isNaN vtrack = false)
  /\ (ToBoolean vtrack = false \/ isNaN vtrack = true ->
      MapComponent.calculateDirectionLine
        vlat vlon vtrack MapComponent.defaultDistance w
      = (w, Normal None))
  /\ snd (MapComponent.calculateDirectionLine
            vlat vlon vtrack MapComponent.defaultDistance w)
     = snd (MapComponent.calculateDirectionLine
              vlat vlon vtrack MapComponent.defaultDistance w2)
  /\ fst (MapComponent.calculateDirectionLine
            vlat vlon vtrack MapComponent.defaultDistance w)
     = logged w (if ToBoolean vtrack && negb (isNaN vtrack)
                 then [LogSize] else []).
Proof.
  assert (Hguard : trackGuard vtrack = true
                   <-> ToBoolean vtrack = true /\ isNaN vtrack = false).
  { unfold trackGuard. destruct (ToBoolean vtrack), (isNaN vtrack);
      simpl; split; try tauto; try discriminate; intros [? ?]; discriminate. }
  split; [|split; [|split]].
  - pose proof (mapSegment_some_iff
                  (mkAircraft None vlat vlon vtrack JUndefined)) as H.
    unfold mapSegment, MapComponent.projectMarker in H.
    cbn [lat lon track] in H.
    rewrite map_calc_closed. cbn [snd]. rewrite <- Hguard, <- H.
    split; intros [seg Hs]; exists seg; congruence.
  - intros Ht. unfold MapComponent.calculateDirectionLine.
    replace (negb (ToBoolean vtrack) || isNaN vtrack) with true;
      [reflexivity|].
    destruct Ht as [-> | ->]; [reflexivity | now rewrite orb_true_r].
  - rewrite (map_calc_closed vlat vlon vtrack w),
      (map_calc_closed vlat vlon vtrack w2). reflexivity.
  - now rewrite map_calc_closed.
Qed.

Lemma map_projection_iff_track_passes_guard_witness :
  (ToBoolean JUndefined = false \/ isNaN JUndefined = true)
  /\ MapComponent.calculateDirectionLine
       (jsnum 41) (jsnum (-8)) JUndefined MapComponent.defaultDistance
       (freshWorld MapReady)
     = (freshWorld MapReady, Normal None).
Proof.
  split; [left; reflexivity|].
  apply (map_projection_iff_track_passes_guard
           (jsnum 41) (jsnum (-8)) JUndefined
           (freshWorld MapReady) (freshWorld MapReady)).
  left. reflexivity.
Defined.

(** X6.  After a successful refresh in [Map.vue] the direction lines are,
    in order, the projections of exactly the stored markers whose track is
    truthy and not NaN under [isNaN], each carrying its marker's
    identifier; ground speed and the map state play no part; the console
    receives one [size] line per direction line and then the count of
    stored markers. *)
Theorem map_refresh_lines_and_console
  (w : World) (status : nat) (ac : list Aircraft) :
  response_ok status = true ->
  let w' := fst (MapComponent.getFlights
                   (FetchResponse status (BodyJson (DataAc ac))) w) in
  markers w' = filter hasValidCoordinates ac
  /\ Forall2 (fun marker dl =>
                line_hex dl = hex marker
                /\ snd (MapComponent.projectMarker marker w)
                   = Normal (Some (line dl)))
             (filter (fun marker =>
                        ToBoolean (track marker)
                        && negb (isNaN (track marker)))
                     (markers w'))
             (directionLines w')
  /\ console w'
     = console w ++ repeat LogSize (List.length (directionLines w'))
         ++ [LogUpdated (List.length (markers w'))]
  /\ mapRef w' = mapRef w.
Proof.
  intros Hok w'. subst w'. rewrite (map_refresh status ac w Hok).
  cbn [fst markers directionLines console mapRef].
  split; [reflexivity|]. split; [|split; [|reflexivity]].
  - eapply Forall2_impl; [|apply map_lines_match].
    intros marker dl [Hh Hs]. split; [exact Hh|].
    rewrite map_projectMarker_closed. cbn [snd]. now rewrite Hs.
  - now rewrite sizeLogs_repeat.
Qed.

Lemma map_refresh_lines_and_console_witness :
  response_ok 200 = true
  /\ markers (fst (MapComponent.getFlights (snapshot [entryB2; entryA1])
                                           (freshWorld NotMounted)))
     = filter hasValidCoordinates [entryB2; entryA1].
Proof.
  split; [reflexivity|].
  apply (map_refresh_lines_and_console
           (freshWorld NotMounted) 200 [entryB2; entryA1]).
  reflexivity.
Defined.

Lemma rad_lat_range (la : R) :
  -90 <= la <= 90 -> - (PI / 2) <= rad la <= PI / 2.
Proof.
  intros [H1 H2]. unfold rad. pose proof PI_RGT_0 as Hpi. split; nra.
Qed.

(** X7.  In [Map.vue], for an aircraft at a valid latitude with a finite
    non-zero track, the segment starts at a great-circle distance of
    0.00001 rad from the aircraft and spans 0.0012 rad from its start to its
    end, whatever the aircraft's speed. *)
Theorem map_segment_offset_and_length (la lo tr : R) (w : World) :
  -90 <= la <= 90 -> tr <> 0 ->
  exists slat slon elat elon : R,
    MapComponent.calculateDirectionLine
      (jsnum la) (jsnum lo) (jsnum tr) MapComponent.defaultDistance w
    = (logged w [LogSize],
       Normal (Some ((jsnum slat, jsnum slon), (jsnum elat, jsnum elon))))
    /\ sin (rad la) * sin (rad slat)
       + cos (rad la) * cos (rad slat) * cos (rad slon - rad lo)
       = cos 0.00001
    /\ sin (rad slat) * sin (rad elat)
       + cos (rad slat) * cos (rad elat) * cos (rad elon - rad slon)
       = cos 0.0012.
Proof.
  intros Hla Ht.
  exists (deg (destLat (rad la) (rad tr) 0.00001)),
         (deg (destLon (rad la) (rad lo) (rad tr) 0.00001)),
         (deg (destLat (destLat (rad la) (rad tr) 0.00001) (rad tr)
                       (0.001 - -0.0002))),
         (deg (destLon (destLat (rad la) (rad tr) 0.00001)
                       (destLon (rad la) (rad lo) (rad tr) 0.00001)
                       (rad tr) (0.001 - -0.0002))).
  split; [now apply map_calc_finite|].
  rewrite !rad_deg. split.
  - apply central_angle. now apply rad_lat_range.
  - replace 0.0012 with (0.001 - -0.0002) by lra.
    apply central_angle. unfold destLat at 1 2. apply asin_bound.
Qed.

Lemma map_segment_offset_and_length_witness :
  -90 <= 41 <= 90 /\ 90 <> 0
  /\ exists slat slon elat elon : R,
      MapComponent.calculateDirectionLine
        (jsnum 41) (jsnum (-8)) (jsnum 90) MapComponent.defaultDistance
        (freshWorld NotMounted)
      = (logged (freshWorld NotMounted) [LogSize],
         Normal (Some ((jsnum slat, jsnum slon), (jsnum elat, jsnum elon))))
      /\ sin (rad 41) * sin (rad slat)
         + cos (rad 41) * cos (rad slat) * cos (rad slon - rad (-8))
         = cos 0.00001
      /\ sin (rad slat) * sin (rad elat)
         + cos (rad slat) * cos (rad elat) * cos (rad elon - rad slon)
         = cos 0.0012.
Proof.
  split; [lra|]. split; [lra|].
  apply (map_segment_offset_and_length 41 (-8) 90 (freshWorld NotMounted));
    lra.
Defined.

(** ** Sequences of runs *)

Lemma scopeSegment_start (ref : MapRef) (marker : Aircraft) (seg : Segment) :
  scopeSegment ref marker = Some seg ->
  seg_start seg = (lat marker, lon marker).
Proof.
  intros H.
  assert (Hd : drawsHeading ref marker = true)
    by (apply scopeSegment_some_iff; eauto).
  apply andb_prop in Hd as [Hm Hg].
  destruct (calc_passes (lat marker) (lon marker) (track marker) (gs marker)
                        (freshWorld ref) Hg Hm) as [e He].
  unfold scopeSegment, RadarScope.projectMarker in H. rewrite He in H.
  cbn [valueOf snd] in H. injection H as <-. reflexivity.
Qed.

Lemma Forall_filter_true {A : Type} (p : A -> bool) (l : list A) :
  Forall (fun a => p a = true) (filter p l).
Proof. apply Forall_forall. intros a Ha. now apply filter_In in Ha. Qed.

(** What one run leaves in the two lists, in either component. *)
Lemma scope_run_outcome (net : FetchResult) (w : World) :
  (raises net = true
   /\ markers (fst (RadarScope.getFlights net w)) = markers w
   /\ directionLines (fst (RadarScope.getFlights net w)) = directionLines w)
  \/ (raises net = false
      /\ exists ac,
          markers (fst (RadarScope.getFlights net w))
          = filter hasValidCoordinates ac
          /\ directionLines (fst (RadarScope.getFlights net w))
             = dropNull (map (scopeLine (mapRef w))
                             (filter hasValidCoordinates ac))).
Proof.
  destruct (run_cases net)
    as [Hr | [(status & Hok & ->)
             | (status & ac & Hok & Hnr & _ & Heq & _)]].
  - left. split; [exact Hr|]. unfold RadarScope.getFlights.
    destruct (getFlights_raises RadarScope.projectMarker net w Hr)
      as [err ->].
    split; reflexivity.
  - right. split; [simpl; now rewrite Hok|]. exists [].
    unfold RadarScope.getFlights.
    rewrite (getFlights_without_ac _ status w Hok). split; reflexivity.
  - right. split; [exact Hnr|]. exists ac.
    rewrite Heq, (scope_refresh status ac w Hok). split; reflexivity.
Qed.

Lemma map_run_outcome (net : FetchResult) (w : World) :
  (raises net = true
   /\ markers (fst (MapComponent.getFlights net w)) = markers w
   /\ directionLines (fst (MapComponent.getFlights net w))
      = directionLines w)
  \/ (raises net = false
      /\ exists ac,
          markers (fst (MapComponent.getFlights net w))
          = filter hasValidCoordinates ac
          /\ directionLines (fst (MapComponent.getFlights net w))
             = dropNull (map mapLine (filter hasValidCoordinates ac))).
Proof.
  destruct (run_cases net)
    as [Hr | [(status & Hok & ->)
             | (status & ac & Hok & Hnr & _ & _ & Heq)]].
  - left. split; [exact Hr|]. unfold MapComponent.getFlights.
    destruct (getFlights_raises MapComponent.projectMarker net w Hr)
      as [err ->].
    split; reflexivity.
  - right. split; [simpl; now rewrite Hok|]. exists [].
    unfold MapComponent.getFlights.
    rewrite (getFlights_without_ac _ status w Hok). split; reflexivity.
  - right. split; [exact Hnr|]. exists ac.
    rewrite Heq, (map_refresh status ac w Hok). split; reflexivity.
Qed.

Lemma mapRef_after_run (net : FetchResult) (w : World) :
  mapRef (fst (RadarScope.getFlights net w)) = mapRef w
  /\ mapRef (fst (MapComponent.getFlights net w)) = mapRef w.
Proof.
  destruct (run_cases net)
    as [Hr | [(status & Hok & ->)
             | (status & ac & Hok & Hnr & _ & HeqS & HeqM)]].
  - unfold RadarScope.getFlights, MapComponent.getFlights.
    destruct (getFlights_raises RadarScope.projectMarker net w Hr)
      as [e1 ->].
    destruct (getFlights_raises MapComponent.projectMarker net w Hr)
      as [e2 ->].
    split; reflexivity.
  - unfold RadarScope.getFlights, MapComponent.getFlights.
    rewrite !(getFlights_without_ac _ status w Hok). split; reflexivity.
  - rewrite HeqS, HeqM.
    rewrite (scope_refresh status ac w Hok), (map_refresh status ac w Hok).
    split; reflexivity.
Qed.

Lemma scopeInvariant_step (e : Event) (w : World) :
  scopeInvariant w -> scopeInvariant (scopeEvent e w).
Proof.
  intros [Hv Hb]. destruct e as [net|ref]; [|exact (conj Hv Hb)].
  cbn [scopeEvent]. unfold scopeInvariant, linesBelong.
  destruct (scope_run_outcome net w) as [(_ & -> & ->) | (_ & ac & -> & ->)].
  - exact (conj Hv Hb).
  - split; [apply Forall_filter_true|].
    exists (filter (drawsHeading (mapRef w)) (filter hasValidCoordinates ac)).
    split; [apply subsequence_filter|].
    eapply Forall2_impl; [|apply scope_lines_match].
    intros marker dl [Hh Hs]. split; [exact Hh|].
    now apply (scopeSegment_start (mapRef w)).
Qed.

Lemma mapInvariant_step (e : Event) (w : World) :
  mapInvariant w -> mapInvariant (mapEvent e w).
Proof.
  intros [Hv Hb]. destruct e as [net|ref]; [|exact (conj Hv Hb)].
  cbn [mapEvent]. unfold mapInvariant, linesBelong.
  destruct (map_run_outcome net w) as [(_ & -> & ->) | (_ & ac & -> & ->)].
  - exact (conj Hv Hb).
  - split; [apply Forall_filter_true|].
    exists (filter (fun marker => trackGuard (track marker))
                   (filter hasValidCoordinates ac)).
    split; [apply subsequence_filter|].
    eapply Forall2_impl; [|apply map_lines_match].
    intros marker dl [Hh _]. exact Hh.
Qed.

Lemma replay_invariant (step : Event -> World -> World) (P : World -> Prop) :
  (forall e w, P w -> P (step e w)) ->
  forall events w, P w -> P (replay step events w).
Proof.
  intros Hstep events. unfold replay.
  induction events as [|e es IH]; intros w Hw; simpl; [exact Hw|].
  apply IH. now apply Hstep.
Qed.

Lemma linesBelong_length (related : Aircraft -> DirectionLine -> Prop)
  (w : World) :
  linesBelong related w ->
  (List.length (directionLines w) <= List.length (markers w))%nat.
Proof.
  intros (ms & Hsub & Hf). apply subsequence_length in Hsub.
  apply Forall2_length in Hf. lia.
Qed.

(** X8.  Whatever calls of [getFlights] complete, in whatever order and
    with whatever outcomes, and however the map component's state changes
    in between, starting from the empty lists: every stored marker passes
    the coordinate filter; every direction line belongs to a stored marker
    (same identifier; in the radar scope view also the marker's position as
    start point), in the markers' order; and there are never more
    direction lines than markers.  This holds in both components. *)
Theorem lines_always_belong_to_stored_markers
  (events : list Event) (ref : MapRef) :
  (let w := replay scopeEvent events (freshWorld ref) in
   Forall (fun marker => hasValidCoordinates marker = true) (markers w)
   /\ linesBelong scopeRelated w
   /\ (List.length (directionLines w) <= List.length (markers w))%nat)
  /\ (let w := replay mapEvent events (freshWorld ref) in
      Forall (fun marker => hasValidCoordinates marker = true) (markers w)
      /\ linesBelong mapRelated w
      /\ (List.length (directionLines w) <= List.length (markers w))%nat).
Proof.
  assert (Hinit : forall related, linesBelong related (freshWorld ref)).
  { intros related. exists []. split; constructor. }
  split.
  - assert (H : scopeInvariant (replay scopeEvent events (freshWorld ref))).
    { apply replay_invariant; [apply scopeInvariant_step|].
      split; [constructor | apply Hinit]. }
    destruct H as [Hv Hb]. cbv zeta. split; [exact Hv|].
    split; [exact Hb | now apply (linesBelong_length scopeRelated)].
  - assert (H : mapInvariant (replay mapEvent events (freshWorld ref))).
    { apply replay_invariant; [apply mapInvariant_step|].
      split; [constructor | apply Hinit]. }
    destruct H as [Hv Hb]. cbv zeta. split; [exact Hv|].
    split; [exact Hb | now apply (linesBelong_length mapRelated)].
Qed.

(** X9.  A run that does not throw replaces the snapshot wholesale: the
    two lists it leaves depend on the response (and, in the radar scope
    view, on the map state) and not on what was stored before, so nothing
    of the previous snapshot survives and the same response applied twice
    gives the same lists as applied once. *)
Theorem refresh_replaces_snapshot (net : FetchResult) (w1 w2 : World) :
  raises net = false ->
  (mapRef w1 = mapRef w2 ->
   markers (fst (RadarScope.getFlights net w1))
   = markers (fst (RadarScope.getFlights net w2))
   /\ directionLines (fst (RadarScope.getFlights net w1))
      = directionLines (fst (RadarScope.getFlights net w2)))
  /\ (markers (fst (MapComponent.getFlights net w1))
      = markers (fst (MapComponent.getFlights net w2))
      /\ directionLines (fst (MapComponent.getFlights net w1))
         = directionLines (fst (MapComponent.getFlights net w2)))
  /\ (markers (fst (RadarScope.getFlights
                      net (fst (RadarScope.getFlights net w1))))
      = markers (fst (RadarScope.getFlights net w1))
      /\ directionLines (fst (RadarScope.getFlights
                                net (fst (RadarScope.getFlights net w1))))
         = directionLines (fst (RadarScope.getFlights net w1))).
Proof.
  intros Hr.
  assert (Hscope : forall wa wb,
             mapRef wa = mapRef wb ->
             markers (fst (RadarScope.getFlights net wa))
             = markers (fst (RadarScope.getFlights net wb))
             /\ directionLines (fst (RadarScope.getFlights net wa))
                = directionLines (fst (RadarScope.getFlights net wb))).
  { intros wa wb Hm.
    destruct (run_cases net)
      as [Hr' | [(status & Hok & ->)
                 | (status & ac & Hok & _ & _ & Heq & _)]].
    - congruence.
    - unfold RadarScope.getFlights.
      rewrite !(getFlights_without_ac _ status _ Hok). split; reflexivity.
    - rewrite !Heq. rewrite !(scope_refresh status ac _ Hok). cbn [fst markers
        directionLines]. rewrite Hm. split; reflexivity. }
  split; [apply Hscope|]. split.
  - destruct (run_cases net)
      as [Hr' | [(status & Hok & ->)
                 | (status & ac & Hok & _ & _ & _ & Heq)]].
    + congruence.
    + unfold MapComponent.getFlights.
      rewrite !(getFlights_without_ac _ status _ Hok). split; reflexivity.
    + rewrite !Heq. rewrite !(map_refresh status ac _ Hok).
      split; reflexivity.
  - apply Hscope. apply mapRef_after_run.
Qed.

Lemma refresh_replaces_snapshot_witness :
  raises (snapshot [entryB2]) = false
  /\ mapRef worldWithA1 = mapRef (freshWorld MapReady)
  /\ markers (fst (RadarScope.getFlights (snapshot [entryB2]) worldWithA1))
     = markers (fst (RadarScope.getFlights (snapshot [entryB2])
                                           (freshWorld MapReady))).
Proof.
  split; [reflexivity|]. split; [reflexivity|].
  apply (refresh_replaces_snapshot (snapshot [entryB2]) worldWithA1
                                   (freshWorld MapReady));
    reflexivity.
Defined.

(** X10.  However many calls fail in a row, the stored snapshot stays what
    it was: after any sequence of runs that all throw, markers, direction
    lines and map reference are unchanged, in both components, and the
    console has grown by exactly one error line per failed run. *)
Theorem failure_streak_keeps_snapshot (nets : list FetchResult) (w : World) :
  forallb raises nets = true ->
  (let w' := replay scopeEvent (map Completed nets) w in
   markers w' = markers w /\ directionLines w' = directionLines w
   /\ mapRef w' = mapRef w
   /\ exists errs,
       List.length errs = List.length nets
       /\ console w' = console w ++ map ErrorFailedToFetch errs)
  /\ (let w' := replay mapEvent (map Completed nets) w in
      markers w' = markers w /\ directionLines w' = directionLines w
      /\ mapRef w' = mapRef w
      /\ exists errs,
          List.length errs = List.length nets
          /\ console w' = console w ++ map ErrorFailedToFetch errs).
Proof.
  revert w. induction nets as [|net nets IH]; intros w Hall.
  - cbv zeta. cbn [map replay fold_left].
    split; (repeat split; try reflexivity; exists [];
            split; [reflexivity | now rewrite app_nil_r]).
  - cbn [forallb] in Hall. apply andb_prop in Hall as [Hr Hall].
    cbv zeta. cbn [map replay fold_left].
    split.
    + cbn [scopeEvent]. unfold RadarScope.getFlights.
      destruct (getFlights_raises RadarScope.projectMarker net w Hr)
        as [err ->].
      cbn [fst].
      destruct (IH (logged w [ErrorFailedToFetch err]) Hall)
        as [(Hm & Hd & Hr' & errs & Hlen & Hc) _].
      unfold replay in *. rewrite Hm, Hd, Hr'.
      repeat split. exists (err :: errs).
      split; [simpl; now rewrite Hlen|].
      rewrite Hc. cbn [console logged map]. now rewrite <- app_assoc.
    + cbn [mapEvent]. unfold MapComponent.getFlights.
      destruct (getFlights_raises MapComponent.projectMarker net w Hr)
        as [err ->].
      cbn [fst].
      destruct (IH (logged w [ErrorFailedToFetch err]) Hall)
        as [_ (Hm & Hd & Hr' & errs & Hlen & Hc)].
      unfold replay in *. rewrite Hm, Hd, Hr'.
      repeat split. exists (err :: errs).
      split; [simpl; now rewrite Hlen|].
      rewrite Hc. cbn [console logged map]. now rewrite <- app_assoc.
Qed.

Lemma failure_streak_keeps_snapshot_witness :
  forallb raises [FetchRejected; FetchResponse 500 BodyNotJson;
                  FetchResponse 200 (BodyJson DataNull)] = true
  /\ markers (replay scopeEvent
                (map Completed
                     [FetchRejected; FetchResponse 500 BodyNotJson;
                      FetchResponse 200 (BodyJson DataNull)])
                worldWithA1)
     = markers worldWithA1.
Proof.
  split; [reflexivity|].
  apply (failure_streak_keeps_snapshot
           [FetchRejected; FetchResponse 500 BodyNotJson;
            FetchResponse 200 (BodyJson DataNull)] worldWithA1).
  reflexivity.
Defined.

(** X11.  In the radar scope view every completed run returns normally and
    appends exactly one line to the console: the error when the run threw,
    and otherwise [Updated n aircraft markers] where [n] is the number of
    markers now stored. *)
Theorem scope_run_logs_one_line (net : FetchResult) (w : World) :
  snd (RadarScope.getFlights net w) = Normal tt
  /\ (raises net = true ->
      exists err,
        console (fst (RadarScope.getFlights net w))
        = console w ++ [ErrorFailedToFetch err])
  /\ (raises net = false ->
      console (fst (RadarScope.getFlights net w))
      = console w
          ++ [LogUpdated
                (List.length (markers (fst (RadarScope.getFlights net w))))]).
Proof.
  destruct (run_cases net)
    as [Hr | [(status & Hok & ->)
             | (status & ac & Hok & Hnr & _ & Heq & _)]].
  - unfold RadarScope.getFlights.
    destruct (getFlights_raises RadarScope.projectMarker net w Hr)
      as [err ->].
    split; [reflexivity|]. split; [|congruence].
    intros _. now exists err.
  - unfold RadarScope.getFlights.
    rewrite (getFlights_without_ac _ status w Hok).
    split; [reflexivity|]. split; [|reflexivity].
    simpl. rewrite Hok. discriminate.
  - rewrite Heq, (scope_refresh status ac w Hok).
    split; [reflexivity|]. split; [|reflexivity].
    congruence.
Qed.

Lemma scope_run_logs_one_line_witness :
  raises (snapshot [entryB2; entryA1]) = false
  /\ console (fst (RadarScope.getFlights (snapshot [entryB2; entryA1])
                                         (freshWorld MapReady)))
     = console (freshWorld MapReady)
         ++ [LogUpdated
               (List.length
                  (markers (fst (RadarScope.getFlights
                                   (snapshot [entryB2; entryA1])
                                   (freshWorld MapReady)))))].
Proof.
  split; [reflexivity|].
  apply (scope_run_logs_one_line (snapshot [entryB2; entryA1])
                                 (freshWorld MapReady)).
  reflexivity.
Defined.

(** ** The wind rose and the popup texts of [Map.vue] *)

Lemma center_60 : WindRose.center = Fin 60.
Proof.
  unfold WindRose.center, WindRose.size. rewrite div_Fin by lra.
  f_equal. lra.
Qed.

Lemma compass_angle (t : R) :
  ((Fin t - Fin 90) * Math.PI / Fin 180)%js = Fin (rad t - PI / 2).
Proof.
  unfold Math.PI. cbn [sub mul]. rewrite div_Fin by lra.
  f_equal. unfold rad. field.
Qed.

Lemma cos_compass (a : R) : cos (a - PI / 2) = sin a.
Proof. rewrite cos_minus, cos_PI2, sin_PI2. ring. Qed.

Lemma sin_compass (a : R) : sin (a - PI / 2) = - cos a.
Proof. rewrite sin_minus, cos_PI2, sin_PI2. ring. Qed.

(** X12.  [createWindRose] always draws the circle and the eight direction
    marks, and adds the arrow block exactly when the track is not [null]
    and not NaN under [isNaN]; so a track of 0 gets an arrow.  For a finite
    track the red arrow runs from the centre (60, 60) to the point 40 units
    away on the compass bearing of the track, north up and east to the
    right, and the text shows the track rounded to the nearest integer. *)
Theorem wind_rose_arrow_follows_compass (track : JsVal) (t : R) :
  (WindRose.notNull track && negb (isNaN track) = false ->
   WindRose.createWindRose track = WindRose.createWindRose JNull)
  /\ List.length (WindRose.createWindRose JNull) = 17%nat
  /\ (exists head1 head2 : number * number,
         WindRose.createWindRose (jsnum t)
         = WindRose.createWindRose JNull
           ++ [SvgLine (Fin 60) (Fin 60)
                       (Fin (60 + 40 * sin (rad t)))
                       (Fin (60 - 40 * cos (rad t))) "red";
               SvgPolygon (Fin (60 + 40 * sin (rad t)),
                           Fin (60 - 40 * cos (rad t))) head1 head2;
               SvgLabel (Fin 60) (Fin 55)
                        (TextDegrees (Fin (IZR (Zfloor (t + 1 / 2)))));
               SvgLabel (Fin 60) (Fin 70) TextTrack])
  /\ (40 * sin (rad t)) * (40 * sin (rad t))
     + (- (40 * cos (rad t))) * (- (40 * cos (rad t))) = 40 * 40.
Proof.
  split; [|split; [|split]].
  - intros H. unfold WindRose.createWindRose, WindRose.arrow.
    rewrite H. reflexivity.
  - reflexivity.
  - unfold WindRose.createWindRose.
    replace (WindRose.arrow JNull) with (@nil SvgElement) by reflexivity.
    rewrite app_nil_r. cbn [app]. unfold WindRose.arrow.
    replace (WindRose.notNull (jsnum t) && negb (isNaN (jsnum t)))
      with true by reflexivity.
    unfold jsnum. cbn [ToNumber]. rewrite compass_angle, center_60.
    unfold WindRose.radius.
    cbn [Math.cos Math.sin sub mul add Math_round].
    rewrite cos_compass, sin_compass.
    replace (60 + (45 - 5) * sin (rad t)) with (60 + 40 * sin (rad t))
      by ring.
    replace (60 + (45 - 5) * - cos (rad t)) with (60 - 40 * cos (rad t))
      by ring.
    replace (60 - 5) with 55 by ring. replace (60 + 10) with 70 by ring.
    eexists. eexists. reflexivity.
  - pose proof (sin2_cos2 (rad t)) as H. unfold Rsqr in H. nra.
Qed.

Lemma wind_rose_arrow_follows_compass_witness :
  WindRose.notNull JUndefined && negb (isNaN JUndefined) = false
  /\ WindRose.createWindRose JUndefined = WindRose.createWindRose JNull.
Proof.
  split; [reflexivity|].
  apply (wind_rose_arrow_follows_compass JUndefined 0). reflexivity.
Defined.

Lemma round_zero_iff (r : R) :
  IZR (Zfloor (r + 1 / 2)) = 0 <-> -1 / 2 <= r < 1 / 2.
Proof.
  pose proof (Zfloor_bound (r + 1 / 2)) as Hb. split.
  - intros H. rewrite H in Hb. lra.
  - intros H. rewrite (Zfloor_eq 0 (r + 1 / 2)); [reflexivity|]. simpl. lra.
Qed.

(** X13.  The speed field of the popup shows N/A exactly when the ground
    speed is missing or NaN or lies in [-0.5, 0.5), so a speed of 0 and
    any speed that rounds to 0 are shown as N/A; every other finite speed
    is shown as the nearest integer, halves going up.  The track field
    shows N/A exactly when the track is falsy, so a track of 0 is shown as
    N/A while a track between 0 and 0.5 is shown as 0 degrees. *)
Theorem popup_speed_and_track_text (marker : Aircraft) (r : R) :
  (Popup.speed marker = ShownText "N/A"
   <-> isNaN (gs marker) = true
       \/ exists x, ToNumber (gs marker) = Fin x /\ -1 / 2 <= x < 1 / 2)
  /\ (ToNumber (gs marker) = Fin r -> ~ (-1 / 2 <= r < 1 / 2) ->
      exists z : Z,
        Popup.speed marker = ShownNumber (Fin (IZR z))
        /\ r - 1 / 2 < IZR z <= r + 1 / 2)
  /\ (Popup.trackText marker = ShownText "N/A"
      <-> ToBoolean (track marker) = false)
  /\ (track marker = jsnum r -> 0 < r < 1 / 2 ->
      Popup.trackText marker = ShownDegrees (Fin 0)).
Proof.
  split; [|split; [|split]].
  - unfold Popup.speed, isNaN.
    destruct (ToNumber (gs marker)) as [| s | x]; cbn [Math_round ToBoolean].
    + split; [now left | reflexivity].
    + split; [discriminate|]. intros [H | (x & H & _)]; discriminate.
    + destruct (Rzero (IZR (Zfloor (x + 1 / 2)))) eqn:Hz; cbn [negb].
      * split; [|reflexivity]. intros _. right. exists x.
        split; [reflexivity|]. now apply round_zero_iff, Rzero_true_iff.
      * split; [discriminate|]. intros [H | (y & H & Hy)]; [discriminate|].
        injection H as <-. apply round_zero_iff, Rzero_true_iff in Hy.
        congruence.
  - intros Hg Hr. unfold Popup.speed. rewrite Hg. cbn [Math_round ToBoolean].
    exists (Zfloor (r + 1 / 2)).
    rewrite Rzero_false.
    + split; [reflexivity|]. pose proof (Zfloor_bound (r + 1 / 2)). lra.
    + intros H. apply round_zero_iff in H. contradiction.
  - unfold Popup.trackText. destruct (ToBoolean (track marker));
      split; intros H; try reflexivity; discriminate.
  - intros Ht Hr. unfold Popup.trackText. rewrite Ht. unfold jsnum.
    rewrite ToBoolean_Fin by lra. cbn [ToNumber Math_round].
    rewrite (Zfloor_eq 0 (r + 1 / 2)); [reflexivity|]. simpl. lra.
Qed.

Lemma popup_speed_and_track_text_witness :
  ToNumber (gs entryA1) = Fin 120 /\ ~ (-1 / 2 <= 120 < 1 / 2)
  /\ exists z : Z,
      Popup.speed entryA1 = ShownNumber (Fin (IZR z))
      /\ 120 - 1 / 2 < IZR z <= 120 + 1 / 2.
Proof.
  split; [reflexivity|]. split; [lra|].
  apply (popup_speed_and_track_text entryA1 120); [reflexivity | lra].
Defined.
